(** * Nuitka: nodes for calls to the [range] builtin

    A shallow embedding of [nuitka/nodes/BuiltinRangeNode.py] and the
    properties of its compile-time reasoning: iteration length, iteration
    values, side effects and constant folding of [range] calls with zero to
    three arguments.

    Python integers are unbounded and are carried as [Z].  Python floats are
    IEEE 754 binary64 numbers and are carried as [spec_float] with precision 53
    and maximal exponent 1024.  A call either returns a value or raises; this
    is the type [PyResult].  A returned [None] is an absent value, [option]. *)

From Stdlib Require Import ZArith List String Bool Lia.
From Stdlib Require Import Floats.SpecFloat.
Import ListNotations.

Open Scope Z_scope.

(** ** Results of Python calls *)

Inductive PyException : Type :=
| TypeError
| ValueError
| OverflowError
| ZeroDivisionError
| AssertionError.

Inductive PyResult (A : Type) : Type :=
| Returns (a : A)
| Raises (e : PyException).

Arguments Returns {A} a.
Arguments Raises {A} e.

Definition bind {A B : Type} (c : PyResult A) (k : A -> PyResult B) : PyResult B :=
  match c with
  | Returns a => k a
  | Raises e => Raises e
  end.

Notation "x <- c ;; k" := (bind c (fun x => k))
  (at level 61, c at next level, right associativity).

(** [x is None] and [x is not None]. *)
Definition is_None {A : Type} (x : option A) : bool :=
  match x with
  | None => true
  | Some _ => false
  end.

Definition is_not_None {A : Type} (x : option A) : bool := negb (is_None x).

(** ** Python numbers

    The numeric operations follow Python 3: [math.ceil] of a float is an
    [int], [round] of an [int] is that [int].  Under Python 2 the same values
    travel as integral floats until the final [int( estimate )]. *)

Module PyFloat.

Definition prec : Z := 53.
Definition emax : Z := 1024.

(** [float( n )] for an [int]: the nearest double, ties to even;
    [OverflowError] when that is beyond the largest finite double. *)
Definition float (n : Z) : PyResult spec_float :=
  match binary_normalize prec emax n 0 false with
  | S754_infinity _ => Raises OverflowError
  | x => Returns x
  end.

(** [x / n] for a float [x] and an [int] [n]: [n] is first converted. *)
Definition truediv (x : spec_float) (n : Z) : PyResult spec_float :=
  y <- float n ;;
  match y with
  | S754_zero _ => Raises ZeroDivisionError
  | _ => Returns (SFdiv prec emax x y)
  end.

End PyFloat.

Module math.

(** The least integer at or above [(-1)^s * m * 2^e]. *)
Definition ceil_finite (s : bool) (m : positive) (e : Z) : Z :=
  let v := cond_Zopp s (Z.pos m) in
  match e with
  | Z0 => v
  | Z.pos _ => v * 2 ^ e
  | Z.neg k => - ((- v) / 2 ^ Z.pos k)
  end.

(** [math.ceil( x )]. *)
Definition ceil (x : spec_float) : PyResult Z :=
  match x with
  | S754_zero _ => Returns 0
  | S754_finite s m e => Returns (ceil_finite s m e)
  | S754_infinity _ => Raises OverflowError
  | S754_nan => Raises ValueError
  end.

End math.

(** [round( x )] and [int( x )] of an [int]. *)
Definition round (x : Z) : Z := x.
Definition int (x : Z) : Z := x.

(** ** The collaborators of the range nodes

    What the range nodes use of the rest of the compiler: the expression
    nodes that are their operands ([NodeBases]), and the helpers that make
    replacement nodes and simulate builtin calls ([NodeMakingHelpers],
    [BuiltinOptimization], [Utils]). *)

Class NodeBases : Type := {
  (** Expression nodes, the constraint collection, source references. *)
  Expr : Type;
  ConstraintCollection : Type;
  SourceRef : Type;
  (** [child.getIntegerValue( constraint_collection )]. *)
  getIntegerValue : Expr -> ConstraintCollection -> option Z;
  (** [child.mayHaveSideEffects( constraint_collection )]. *)
  childMayHaveSideEffects : Expr -> ConstraintCollection -> bool
}.

Class Helpers `{NodeBases} : Type := {
  (** Compile-time constants as the builtin simulation produces them. *)
  Constant : Type;
  (** [nuitka.Utils.python_version], as in [300] for Python 3.0. *)
  python_version : Z;
  (** [makeConstantReplacementNode( constant, node )]. *)
  makeConstantReplacementNode : forall {Self : Type}, Z -> Self -> Expr;
  (** [BuiltinOptimization.builtin_range_spec]. *)
  isCompileTimeComputable : list Expr -> bool;
  simulateCall : list Expr -> PyResult Constant;
  getName : string;
  (** [getComputationResult( node, computation, description )]: the new node,
      which is [node] itself or an expression replacing it, the change tags
      and the change description. *)
  getComputationResult :
    forall {Self : Type}, Self -> (unit -> PyResult Constant) -> string ->
                          (Self + Expr) * option string * option string
}.

(** What [computeNode] returns: [new_node, change_tags, change_desc]. *)
Definition ComputeResult `{NodeBases} (Self : Type) : Type :=
  ((Self + Expr) * option string * option string)%type.

(** ** [CPythonExpressionBuiltinRange0] *)

Module CPythonExpressionBuiltinRange0.

Record t `{NodeBases} : Type := { source_ref : SourceRef }.

Definition mayHaveSideEffects `{NodeBases}
    (self : t) (constraint_collection : ConstraintCollection) : bool :=
  false.

End CPythonExpressionBuiltinRange0.

(** ** [CPythonExpressionBuiltinRangeBase] *)

Module CPythonExpressionBuiltinRangeBase.
Section Methods.
Context {nodes : NodeBases}.

(** [getTruthValue]; the length comes from the subclass. *)
Definition getTruthValue
    (getIterationLength : ConstraintCollection -> PyResult (option Z))
    (constraint_collection : ConstraintCollection) : PyResult (option bool) :=
  length <- getIterationLength constraint_collection ;;
  match length with
  | None => Returns None
  | Some length => Returns (Some (0 <? length))
  end.

(** The [for child in ...: ... else: return False] loop. *)
Fixpoint mayHaveSideEffects
    (visitable_nodes : list Expr)
    (constraint_collection : ConstraintCollection) : bool :=
  match visitable_nodes with
  | [] => false
  | child :: rest =>
      if childMayHaveSideEffects child constraint_collection then true
      else if is_None (getIntegerValue child constraint_collection) then true
      else mayHaveSideEffects rest constraint_collection
  end.

End Methods.
End CPythonExpressionBuiltinRangeBase.

(** ** [CPythonExpressionBuiltinRange1] *)

Module CPythonExpressionBuiltinRange1.

Record t `{NodeBases} : Type := { low : Expr; source_ref : SourceRef }.

Section Methods.
Context {nodes : NodeBases} {helpers : Helpers}.

Definition getLow (self : t) : Expr := low self.

(** Modelled from the spec: [getVisitableNodes] of
    [CPythonExpressionChildrenHavingBase] is not part of the sources here;
    it yields the operands the node owns, in the order of [named_children]. *)
Definition getVisitableNodes (self : t) : list Expr := [low self].

Definition mayHaveSideEffects (self : t) (constraint_collection : ConstraintCollection) : bool :=
  CPythonExpressionBuiltinRangeBase.mayHaveSideEffects
    (getVisitableNodes self) constraint_collection.

Definition computeNode (self : t) (constraint_collection : ConstraintCollection)
    : ComputeResult t :=
  if 300 <=? python_version then (inl self, None, None)
  else
    let given_values := [getLow self] in
    if negb (isCompileTimeComputable given_values) then (inl self, None, None)
    else
      getComputationResult self
        (fun _ => simulateCall given_values)
        "Builtin call to range precomputed."%string.

Definition getIterationLength (self : t) (constraint_collection : ConstraintCollection)
    : PyResult (option Z) :=
  match getIntegerValue (getLow self) constraint_collection with
  | None => Returns None
  | Some low => Returns (Some (Z.max 0 low))
  end.

Definition canPredictIterationValues (self : t) (constraint_collection : ConstraintCollection)
    : PyResult bool :=
  length <- getIterationLength self constraint_collection ;;
  Returns (is_not_None length).

Definition getIterationValue (self : t) (element_index : Z)
    (constraint_collection : ConstraintCollection) : PyResult (option Expr) :=
  length <- getIterationLength self constraint_collection ;;
  match length with
  | None => Returns None
  | Some length =>
      if length <? element_index then Returns None
      else Returns (Some (makeConstantReplacementNode (int element_index) self))
  end.

(** [count is None or count == self.getIterationLength()]: the call on the
    right has no [constraint_collection] argument and raises [TypeError]
    when it is reached. *)
Definition isKnownToBeIterable (self : t) (count : option Z) : PyResult bool :=
  match count with
  | None => Returns true
  | Some _ => Raises TypeError
  end.

Definition getTruthValue (self : t) :=
  CPythonExpressionBuiltinRangeBase.getTruthValue (getIterationLength self).

End Methods.
End CPythonExpressionBuiltinRange1.

(** ** [CPythonExpressionBuiltinRange2] *)

Module CPythonExpressionBuiltinRange2.

Record t `{NodeBases} : Type := { low : Expr; high : Expr; source_ref : SourceRef }.

Section Methods.
Context {nodes : NodeBases} {helpers : Helpers}.

Definition getLow (self : t) : Expr := low self.
Definition getHigh (self : t) : Expr := high self.

(** Modelled from the spec: [getVisitableNodes] of
    [CPythonExpressionChildrenHavingBase] is not part of the sources here;
    it yields the operands the node owns, in the order of [named_children]. *)
Definition getVisitableNodes (self : t) : list Expr := [low self; high self].

Definition mayHaveSideEffects (self : t) (constraint_collection : ConstraintCollection) : bool :=
  CPythonExpressionBuiltinRangeBase.mayHaveSideEffects
    (getVisitableNodes self) constraint_collection.

Definition computeBuiltinSpec (self : t) (given_values : list Expr) : ComputeResult t :=
  if negb (isCompileTimeComputable given_values) then (inl self, None, None)
  else
    getComputationResult self
      (fun _ => simulateCall given_values)
      ("Builtin call to " ++ getName ++ " precomputed.")%string.

Definition computeNode (self : t) (constraint_collection : ConstraintCollection)
    : ComputeResult t :=
  if 300 <=? python_version then (inl self, None, None)
  else
    let low := getLow self in
    let high := getHigh self in
    computeBuiltinSpec self [low; high].

Definition getIterationLength (self : t) (constraint_collection : ConstraintCollection)
    : PyResult (option Z) :=
  let low := getLow self in
  let high := getHigh self in
  match getIntegerValue low constraint_collection with
  | None => Returns None
  | Some low =>
      match getIntegerValue high constraint_collection with
      | None => Returns None
      | Some high => Returns (Some (Z.max 0 (high - low)))
      end
  end.

Definition canPredictIterationValues (self : t) (constraint_collection : ConstraintCollection)
    : PyResult bool :=
  length <- getIterationLength self constraint_collection ;;
  Returns (is_not_None length).

Definition getIterationValue (self : t) (element_index : Z)
    (constraint_collection : ConstraintCollection) : PyResult (option Expr) :=
  let low := getLow self in
  let high := getHigh self in
  match getIntegerValue low constraint_collection with
  | None => Returns None
  | Some low =>
      match getIntegerValue high constraint_collection with
      | None => Returns None
      | Some high =>
          let result := low + element_index in
          if high <=? result then Returns None
          else Returns (Some (makeConstantReplacementNode result self))
      end
  end.

(** [count is None or count == self.getIterationLength()]: the call on the
    right has no [constraint_collection] argument and raises [TypeError]
    when it is reached. *)
Definition isKnownToBeIterable (self : t) (count : option Z) : PyResult bool :=
  match count with
  | None => Returns true
  | Some _ => Raises TypeError
  end.

Definition getTruthValue (self : t) :=
  CPythonExpressionBuiltinRangeBase.getTruthValue (getIterationLength self).

End Methods.
End CPythonExpressionBuiltinRange2.

(** ** [CPythonExpressionBuiltinRange3] *)

Module CPythonExpressionBuiltinRange3.

Record t `{NodeBases} : Type :=
  { low : Expr; high : Expr; step : Expr; source_ref : SourceRef }.

(** [math.ceil( float( high - low ) / step )]. *)
Definition ceil_quotient (low high step : Z) : PyResult Z :=
  x <- PyFloat.float (high - low) ;;
  q <- PyFloat.truediv x step ;;
  math.ceil q.

(** [getIterationLength] once the three integer values are at hand. *)
Definition length_of (low high step : Z) : PyResult (option Z) :=
  (* Give up on this, will raise ValueError. *)
  if step =? 0 then Returns None
  else
    estimate <-
      (if low <? high then
         if step <? 0 then Returns 0 else ceil_quotient low high step
       else
         if 0 <? step then Returns 0 else ceil_quotient low high step) ;;
    let estimate := round estimate in
    if estimate <? 0 then Raises AssertionError
    else Returns (Some (int estimate)).

Section Methods.
Context {nodes : NodeBases} {helpers : Helpers}.

Definition getLow (self : t) : Expr := low self.
Definition getHigh (self : t) : Expr := high self.
Definition getStep (self : t) : Expr := step self.

(** Modelled from the spec: [getVisitableNodes] of
    [CPythonExpressionChildrenHavingBase] is not part of the sources here;
    it yields the operands the node owns, in the order of [named_children]. *)
Definition getVisitableNodes (self : t) : list Expr := [low self; high self; step self].

Definition mayHaveSideEffects (self : t) (constraint_collection : ConstraintCollection) : bool :=
  CPythonExpressionBuiltinRangeBase.mayHaveSideEffects
    (getVisitableNodes self) constraint_collection.

Definition computeBuiltinSpec (self : t) (given_values : list Expr) : ComputeResult t :=
  if negb (isCompileTimeComputable given_values) then (inl self, None, None)
  else
    getComputationResult self
      (fun _ => simulateCall given_values)
      ("Builtin call to " ++ getName ++ " precomputed.")%string.

Definition computeNode (self : t) (constraint_collection : ConstraintCollection)
    : ComputeResult t :=
  if 300 <=? python_version then (inl self, None, None)
  else
    let low := getLow self in
    let high := getHigh self in
    let step := getStep self in
    computeBuiltinSpec self [low; high; step].

Definition getIterationLength (self : t) (constraint_collection : ConstraintCollection)
    : PyResult (option Z) :=
  let low := getLow self in
  let high := getHigh self in
  let step := getStep self in
  match getIntegerValue low constraint_collection with
  | None => Returns None
  | Some low =>
      match getIntegerValue high constraint_collection with
      | None => Returns None
      | Some high =>
          match getIntegerValue step constraint_collection with
          | None => Returns None
          | Some step => length_of low high step
          end
      end
  end.

Definition canPredictIterationValues (self : t) (constraint_collection : ConstraintCollection)
    : PyResult bool :=
  length <- getIterationLength self constraint_collection ;;
  Returns (is_not_None length).

(** [step] is used as it comes: [None * element_index] raises [TypeError]. *)
Definition getIterationValue (self : t) (element_index : Z)
    (constraint_collection : ConstraintCollection) : PyResult (option Expr) :=
  match getIntegerValue (getLow self) constraint_collection with
  | None => Returns None
  | Some low =>
      match getIntegerValue (getHigh self) constraint_collection with
      | None => Returns None
      | Some high =>
          match getIntegerValue (getStep self) constraint_collection with
          | None => Raises TypeError
          | Some step =>
              let result := low + step * element_index in
              if high <=? result then Returns None
              else Returns (Some (makeConstantReplacementNode result self))
          end
      end
  end.

(** [count is None or count == self.getIterationLength()]: the call on the
    right has no [constraint_collection] argument and raises [TypeError]
    when it is reached. *)
Definition isKnownToBeIterable (self : t) (count : option Z) : PyResult bool :=
  match count with
  | None => Returns true
  | Some _ => Raises TypeError
  end.

Definition getTruthValue (self : t) :=
  CPythonExpressionBuiltinRangeBase.getTruthValue (getIterationLength self).

End Methods.
End CPythonExpressionBuiltinRange3.

(** ** Notions the properties are stated with *)

(** The ceiling of the rational [a / b], for [b] other than 0, in exact
    integer arithmetic. *)
Definition exact_ceiling (a b : Z) : Z := - ((- a) / b).

(** The sign bit of a float, where it has one. *)
Definition has_sign (s : bool) (x : spec_float) : Prop :=
  match x with
  | S754_zero s' | S754_infinity s' | S754_finite s' _ _ => s' = s
  | S754_nan => True
  end.

(** The second half of [binary_round_aux]: the rounded mantissa [q1] with the
    exponent [e1] is brought back to 53 digits and packed. *)
Definition finish (s : bool) (q1 e1 : Z) : spec_float :=
  let '(mrs'', e'') := shr_fexp PyFloat.prec PyFloat.emax q1 e1 loc_Exact in
  match shr_m mrs'' with
  | Z0 => S754_zero s
  | Zpos m => if e'' <=? PyFloat.emax - PyFloat.prec then S754_finite s m e'' else S754_infinity s
  | _ => S754_nan
  end.

(** The mantissa of a quotient of two 53-digit mantissas after rounding to
    nearest, ties to even, on the scale of the integer quotient [q] with
    remainder [r] of the division by [my]. *)
Definition rounded (q my r : Z) : Z :=
  if q <? 2 ^ 53 then
    q + (if r =? 0 then 0
         else match 2 * r ?= my with
              | Lt => 0
              | Eq => if Z.even q then 0 else 1
              | Gt => 1
              end)
  else
    if Z.even q then q
    else if r =? 0 then (if Z.even (q / 2) then q - 1 else q + 1)
         else q + 1.

(** An operand that is free of side effects and has a known integer value. *)
Definition effect_free_known_integer `{NodeBases}
    (constraint_collection : ConstraintCollection) (child : Expr) : Prop :=
  childMayHaveSideEffects child constraint_collection = false /\
  getIntegerValue child constraint_collection <> None.

Module Range0 := CPythonExpressionBuiltinRange0.
Module RangeBase := CPythonExpressionBuiltinRangeBase.
Module Range1 := CPythonExpressionBuiltinRange1.
Module Range2 := CPythonExpressionBuiltinRange2.
Module Range3 := CPythonExpressionBuiltinRange3.

(** ** A small compiler to run the nodes in

    Operands are constants or variable references.  The integer value of an
    integer constant is known, that of a variable is not; neither has side
    effects.  Folding is that of Python 2.7. *)

Module Scenario.

Inductive PyConstant : Type :=
| IntConstant (value : Z)
| ListConstant (values : list Z).

Inductive SimpleExpr : Type :=
| ConstantRef (constant : PyConstant)
| VariableRef (name : string).

Definition isCompileTimeConstant (e : SimpleExpr) : bool :=
  match e with
  | ConstantRef _ => true
  | VariableRef _ => false
  end.

(** The list [range( low, high, step )] of Python 2 for a step that is not 0. *)
Definition range_list (low high step : Z) : list Z :=
  let n := if 0 <? step then (high - low + step - 1) / step
           else (low - high - step - 1) / (- step) in
  map (fun i => low + step * Z.of_nat i) (seq 0 (Z.to_nat n)).

Definition simulate_range (given_values : list SimpleExpr) : PyResult PyConstant :=
  match given_values with
  | [ConstantRef (IntConstant low)] =>
      Returns (ListConstant (range_list 0 low 1))
  | [ConstantRef (IntConstant low); ConstantRef (IntConstant high)] =>
      Returns (ListConstant (range_list low high 1))
  | [ConstantRef (IntConstant low); ConstantRef (IntConstant high);
     ConstantRef (IntConstant step)] =>
      if step =? 0 then Raises ValueError
      else Returns (ListConstant (range_list low high step))
  | _ => Raises TypeError
  end.

#[export] Instance simple_nodes : NodeBases := {|
  Expr := SimpleExpr;
  ConstraintCollection := unit;
  SourceRef := unit;
  getIntegerValue := fun e _ =>
    match e with
    | ConstantRef (IntConstant c) => Some c
    | _ => None
    end;
  childMayHaveSideEffects := fun _ _ => false
|}.

(** Modelled from the spec: [getComputationResult] of [NodeMakingHelpers] is
    not part of the sources here.  A computation that succeeds replaces the
    node with a constant node and the description as reason; one that would
    raise leaves the node in place with no replacement. *)
Definition simple_getComputationResult {Self : Type} (node : Self)
    (computation : unit -> PyResult PyConstant) (description : string)
    : (Self + SimpleExpr) * option string * option string :=
  match computation tt with
  | Returns value => (inr (ConstantRef value), Some "new_constant"%string, Some description)
  | Raises _ => (inl node, None, None)
  end.

#[export] Instance simple_helpers : Helpers := {|
  Constant := PyConstant;
  python_version := 270;
  makeConstantReplacementNode := fun _ c _ => ConstantRef (IntConstant c);
  isCompileTimeComputable := forallb isCompileTimeConstant;
  simulateCall := simulate_range;
  getName := "range"%string;
  getComputationResult := @simple_getComputationResult
|}.

Definition const (value : Z) : SimpleExpr := ConstantRef (IntConstant value).
Definition var (name : string) : SimpleExpr := VariableRef name.

Definition range1 (low : SimpleExpr) : CPythonExpressionBuiltinRange1.t :=
  {| CPythonExpressionBuiltinRange1.low := low;
     CPythonExpressionBuiltinRange1.source_ref := tt |}.

Definition range2 (low high : SimpleExpr) : CPythonExpressionBuiltinRange2.t :=
  {| CPythonExpressionBuiltinRange2.low := low;
     CPythonExpressionBuiltinRange2.high := high;
     CPythonExpressionBuiltinRange2.source_ref := tt |}.

Definition range3 (low high step : SimpleExpr) : CPythonExpressionBuiltinRange3.t :=
  {| CPythonExpressionBuiltinRange3.low := low;
     CPythonExpressionBuiltinRange3.high := high;
     CPythonExpressionBuiltinRange3.step := step;
     CPythonExpressionBuiltinRange3.source_ref := tt |}.

End Scenario.

Import Scenario.

(** * Properties *)

(** ** The result monad *)

Lemma bind_Returns {A B : Type} (c : PyResult A) (k : A -> PyResult B) (b : B) :
  bind c k = Returns b <-> exists a, c = Returns a /\ k a = Returns b.
Proof.
  destruct c as [a | e]; simpl; split.
  - intros Hk. exists a. split; [reflexivity | exact Hk].
  - intros [a' [Ha Hk]]. inversion Ha. subst a'. exact Hk.
  - discriminate.
  - intros [a' [Ha _]]. discriminate Ha.
Qed.

Lemma bind_Raises {A B : Type} (c : PyResult A) (k : A -> PyResult B) (e : PyException) :
  bind c k = Raises e <->
  c = Raises e \/ exists a, c = Returns a /\ k a = Raises e.
Proof.
  destruct c as [a | e']; simpl; split.
  - intros Hk. right. exists a. split; [reflexivity | exact Hk].
  - intros [Hc | [a' [Ha Hk]]]; [discriminate Hc | ].
    inversion Ha. subst a'. exact Hk.
  - intros He. left. inversion He. reflexivity.
  - intros [Hc | [a' [Ha _]]]; [inversion Hc; reflexivity | discriminate Ha].
Qed.

(** ** Signs of the floats of the length estimate *)

Lemma binary_round_aux_sign (s : bool) (m e : Z) (l : location) :
  has_sign s (binary_round_aux PyFloat.prec PyFloat.emax s m e l).
Proof.
  unfold binary_round_aux.
  destruct (shr_fexp PyFloat.prec PyFloat.emax m e l) as [mrs' e'].
  destruct (shr_fexp PyFloat.prec PyFloat.emax _ e' loc_Exact) as [mrs'' e''].
  destruct (shr_m mrs'') as [ | p | p]; [reflexivity | | exact I].
  destruct (e'' <=? PyFloat.emax - PyFloat.prec); reflexivity.
Qed.

Lemma float_sign (n : Z) (x : spec_float) :
  PyFloat.float n = Returns x -> has_sign (n <? 0) x.
Proof.
  unfold PyFloat.float, binary_normalize, binary_round.
  destruct n as [ | p | p].
  - intros Hx. inversion Hx. reflexivity.
  - destruct (shl_align _ _ _) as [mz ez].
    pose proof (binary_round_aux_sign false (Z.pos mz) ez loc_Exact) as Hs.
    destruct (binary_round_aux _ _ _ _ _ _); intros Hx;
      inversion Hx; subst; exact Hs.
  - destruct (shl_align _ _ _) as [mz ez].
    pose proof (binary_round_aux_sign true (Z.pos mz) ez loc_Exact) as Hs.
    destruct (binary_round_aux _ _ _ _ _ _); intros Hx;
      inversion Hx; subst; exact Hs.
Qed.

Lemma float_not_infinite (n : Z) (s : bool) :
  PyFloat.float n <> Returns (S754_infinity s).
Proof.
  unfold PyFloat.float.
  destruct (binary_normalize _ _ _ _ _); discriminate.
Qed.

Lemma SFdiv_sign (sx sy : bool) (x y : spec_float) :
  has_sign sx x -> has_sign sy y ->
  (forall s, y <> S754_zero s) -> (forall s, y <> S754_infinity s) ->
  has_sign (xorb sx sy) (SFdiv PyFloat.prec PyFloat.emax x y).
Proof.
  intros Hx Hy Hzero Hinf.
  destruct y as [s | s | | s m e];
    [exfalso; exact (Hzero s eq_refl) | exfalso; exact (Hinf s eq_refl) | | ].
  - destruct x; exact I.
  - simpl in Hy. subst s.
    destruct x as [s | s | | s mx ex]; simpl in Hx; subst; simpl; trivial.
    destruct (SFdiv_core_binary _ _ _ _ _ _) as [[mz ez] lz].
    apply binary_round_aux_sign.
Qed.

Lemma truediv_sign (sx : bool) (x : spec_float) (n : Z) (q : spec_float) :
  has_sign sx x -> PyFloat.truediv x n = Returns q ->
  has_sign (xorb sx (n <? 0)) q.
Proof.
  intros Hx Hq. unfold PyFloat.truediv in Hq.
  apply bind_Returns in Hq. destruct Hq as [y [Hy Hq]].
  assert (Hzero : forall s, y <> S754_zero s).
  { intros s Hs. subst y. discriminate Hq. }
  assert (Hinf : forall s, y <> S754_infinity s).
  { intros s Hs. subst y. exact (float_not_infinite n s Hy). }
  assert (Hdiv : q = SFdiv PyFloat.prec PyFloat.emax x y).
  { destruct y; inversion Hq; reflexivity. }
  subst q. apply SFdiv_sign; trivial. apply float_sign. exact Hy.
Qed.

Lemma ceil_finite_nonneg (m : positive) (e : Z) : 0 <= math.ceil_finite false m e.
Proof.
  unfold math.ceil_finite, cond_Zopp.
  destruct e as [ | p | p].
  - lia.
  - apply Z.mul_nonneg_nonneg; [lia | apply Z.pow_nonneg; lia].
  - assert (Hpow : 0 < 2 ^ Z.pos p) by (apply Z.pow_pos_nonneg; lia).
    assert (Hdiv : - Z.pos m / 2 ^ Z.pos p < 0).
    { apply Z.div_lt_upper_bound; lia. }
    lia.
Qed.

Lemma ceil_nonneg (q : spec_float) (n : Z) :
  has_sign false q -> math.ceil q = Returns n -> 0 <= n.
Proof.
  destruct q as [s | s | | s m e]; simpl; intros Hs Hn;
    try discriminate Hn; inversion Hn; subst.
  - lia.
  - apply ceil_finite_nonneg.
Qed.

Lemma ceil_of_zero_quotient (step n : Z) :
  Range3.ceil_quotient 0 0 step = Returns n -> n = 0.
Proof.
  unfold Range3.ceil_quotient. simpl. unfold PyFloat.truediv.
  intros Hn. apply bind_Returns in Hn. destruct Hn as [q [Hq Hn]].
  apply bind_Returns in Hq. destruct Hq as [y [Hy Hq]].
  destruct y as [s | s | | s m e]; try discriminate Hq;
    inversion Hq; subst q; simpl in Hn.
  - exfalso. exact (float_not_infinite step s Hy).
  - discriminate Hn.
  - inversion Hn. reflexivity.
Qed.

Lemma ceil_quotient_nonneg (low high step n : Z) :
  (low < high /\ 0 < step) \/ (high <= low /\ step < 0) ->
  Range3.ceil_quotient low high step = Returns n -> 0 <= n.
Proof.
  intros Hdir Hn.
  destruct (Z.eq_dec high low) as [Heq | Hne].
  - subst high. unfold Range3.ceil_quotient in Hn.
    replace (low - low) with 0 in Hn by lia.
    apply (ceil_of_zero_quotient step) in Hn. lia.
  - unfold Range3.ceil_quotient in Hn.
    apply bind_Returns in Hn. destruct Hn as [x [Hx Hn]].
    apply bind_Returns in Hn. destruct Hn as [q [Hq Hn]].
    apply float_sign in Hx.
    apply (truediv_sign _ _ _ _ Hx) in Hq.
    apply (ceil_nonneg q); [ | exact Hn].
    replace (xorb (high - low <? 0) (step <? 0)) with false in Hq; [exact Hq | ].
    destruct Hdir as [[Hlt Hs] | [Hle Hs]].
    + replace (high - low <? 0) with false by (symmetry; apply Z.ltb_ge; lia).
      replace (step <? 0) with false by (symmetry; apply Z.ltb_ge; lia).
      reflexivity.
    + replace (high - low <? 0) with true by (symmetry; apply Z.ltb_lt; lia).
      replace (step <? 0) with true by (symmetry; apply Z.ltb_lt; lia).
      reflexivity.
Qed.

Lemma ceil_quotient_never_asserts (low high step : Z) :
  Range3.ceil_quotient low high step <> Raises AssertionError.
Proof.
  unfold Range3.ceil_quotient, PyFloat.truediv, PyFloat.float.
  destruct (binary_normalize _ _ (high - low) _ _); simpl; try discriminate;
    destruct (binary_normalize _ _ step _ _); simpl; try discriminate;
    match goal with
    | |- math.ceil ?q <> _ => destruct q; discriminate
    end.
Qed.

Lemma length_of_never_asserts (low high step : Z) :
  Range3.length_of low high step <> Raises AssertionError.
Proof.
  unfold Range3.length_of, round, int.
  destruct (step =? 0) eqn:Hstep; [discriminate | ].
  intros Hraise. apply bind_Raises in Hraise.
  destruct Hraise as [Hraise | [estimate [Hest Hraise]]].
  - destruct (low <? high), (step <? 0), (0 <? step);
      try discriminate Hraise;
      exact (ceil_quotient_never_asserts low high step Hraise).
  - destruct (estimate <? 0) eqn:Hneg; [ | discriminate Hraise].
    apply Z.ltb_lt in Hneg.
    destruct (low <? high) eqn:Hlh.
    + apply Z.ltb_lt in Hlh.
      destruct (step <? 0) eqn:Hs.
      * inversion Hest. lia.
      * apply Z.ltb_ge in Hs. apply Z.eqb_neq in Hstep.
        apply ceil_quotient_nonneg in Hest; lia.
    + apply Z.ltb_ge in Hlh.
      destruct (0 <? step) eqn:Hs.
      * inversion Hest. lia.
      * apply Z.ltb_ge in Hs. apply Z.eqb_neq in Hstep.
        apply ceil_quotient_nonneg in Hest; lia.
Qed.

Lemma length_of_nonneg (low high step n : Z) :
  Range3.length_of low high step = Returns (Some n) -> 0 <= n.
Proof.
  unfold Range3.length_of, round, int.
  destruct (step =? 0); [discriminate | ].
  intros Hn. apply bind_Returns in Hn. destruct Hn as [estimate [_ Hn]].
  destruct (estimate <? 0) eqn:Hneg; [discriminate Hn | ].
  apply Z.ltb_ge in Hneg. inversion Hn. lia.
Qed.

Lemma length_of_mismatch (low high step : Z) :
  (low < high /\ step < 0) \/ (high <= low /\ 0 < step) ->
  Range3.length_of low high step = Returns (Some 0).
Proof.
  intros Hdir. unfold Range3.length_of.
  destruct Hdir as [[Hlh Hs] | [Hlh Hs]].
  - replace (step =? 0) with false by (symmetry; apply Z.eqb_neq; lia).
    replace (low <? high) with true by (symmetry; apply Z.ltb_lt; lia).
    replace (step <? 0) with true by (symmetry; apply Z.ltb_lt; lia).
    reflexivity.
  - replace (step =? 0) with false by (symmetry; apply Z.eqb_neq; lia).
    replace (low <? high) with false by (symmetry; apply Z.ltb_ge; lia).
    replace (0 <? step) with true by (symmetry; apply Z.ltb_lt; lia).
    reflexivity.
Qed.

(** ** Exactness of the length estimate up to 2^53

    Integers up to 2^53 in magnitude are doubles; the quotient of two of them
    is rounded to nearest, and its ceiling is still that of the exact
    quotient. *)

Lemma digits2_pos_bounds (p : positive) :
  2 ^ (Z.pos (digits2_pos p) - 1) <= Z.pos p < 2 ^ Z.pos (digits2_pos p).
Proof.
  induction p as [p IH | p IH | ]; simpl digits2_pos.
  - rewrite Pos2Z.inj_succ.
    replace (Z.succ (Z.pos (digits2_pos p)) - 1) with (Z.succ (Z.pos (digits2_pos p) - 1)) by lia.
    rewrite !Z.pow_succ_r by lia. lia.
  - rewrite Pos2Z.inj_succ.
    replace (Z.succ (Z.pos (digits2_pos p)) - 1) with (Z.succ (Z.pos (digits2_pos p) - 1)) by lia.
    rewrite !Z.pow_succ_r by lia. lia.
  - simpl. lia.
Qed.

Lemma digits2_pos_unique (p : positive) (d : Z) :
  2 ^ (d - 1) <= Z.pos p < 2 ^ d -> Z.pos (digits2_pos p) = d.
Proof.
  intros [Hlow Hhigh].
  pose proof (digits2_pos_bounds p) as [Hl Hh].
  assert (Hd : 0 < d).
  { destruct (Z_lt_le_dec 0 d) as [Hpos | Hneg]; [exact Hpos | ].
    exfalso.
    assert (2 ^ d <= 1).
    { destruct (Z.eq_dec d 0) as [-> | Hne]; [simpl; lia | ].
      rewrite Z.pow_neg_r by lia. lia. }
    lia. }
  destruct (Z.lt_trichotomy (Z.pos (digits2_pos p)) d) as [Hlt | [Heq | Hgt]].
  - exfalso.
    assert (2 ^ Z.pos (digits2_pos p) <= 2 ^ (d - 1)) by (apply Z.pow_le_mono_r; lia).
    lia.
  - exact Heq.
  - exfalso.
    assert (2 ^ d <= 2 ^ (Z.pos (digits2_pos p) - 1)) by (apply Z.pow_le_mono_r; lia).
    lia.
Qed.

Lemma binary_round_aux_finish s m e l :
  binary_round_aux PyFloat.prec PyFloat.emax s m e l
  = let '(mrs', e') := shr_fexp PyFloat.prec PyFloat.emax m e l in
    finish s (round_nearest_even (shr_m mrs') (loc_of_shr_record mrs')) e'.
Proof. reflexivity. Qed.

Lemma fexp_normal (e : Z) : -1074 <= e -> fexp PyFloat.prec PyFloat.emax (53 + e) = e.
Proof.
  intros He. unfold fexp, emin, PyFloat.prec, PyFloat.emax. lia.
Qed.

Lemma fexp_normal_54 (e : Z) : -1074 <= e -> fexp PyFloat.prec PyFloat.emax (54 + e) = e + 1.
Proof.
  intros He. unfold fexp, emin, PyFloat.prec, PyFloat.emax. lia.
Qed.

Lemma Zdigits2_53 (q : Z) : 2 ^ 52 <= q < 2 ^ 53 -> Zdigits2 q = 53.
Proof.
  intros Hq. destruct q as [ | p | p]; try lia.
  simpl. apply digits2_pos_unique. exact Hq.
Qed.

Lemma Zdigits2_54 (q : Z) : 2 ^ 53 <= q < 2 ^ 54 -> Zdigits2 q = 54.
Proof.
  intros Hq. destruct q as [ | p | p]; try lia.
  simpl. apply digits2_pos_unique. exact Hq.
Qed.

Lemma shr_fexp_53 (q e : Z) (l : location) :
  2 ^ 52 <= q < 2 ^ 53 -> -1074 <= e ->
  shr_fexp PyFloat.prec PyFloat.emax q e l = (shr_record_of_loc q l, e).
Proof.
  intros Hq He. unfold shr_fexp.
  rewrite (Zdigits2_53 q Hq), (fexp_normal e He), Z.sub_diag. reflexivity.
Qed.

Lemma shr_fexp_54 (q e : Z) (l : location) :
  2 ^ 53 <= q < 2 ^ 54 -> -1074 <= e ->
  shr_fexp PyFloat.prec PyFloat.emax q e l = (shr_1 (shr_record_of_loc q l), e + 1).
Proof.
  intros Hq He. unfold shr_fexp.
  rewrite (Zdigits2_54 q Hq), (fexp_normal_54 e He).
  replace (e + 1 - e) with 1 by lia. reflexivity.
Qed.

Lemma shr_m_of_loc (q : Z) (l : location) : shr_m (shr_record_of_loc q l) = q.
Proof. destruct l as [ | [ | | ]]; reflexivity. Qed.

Lemma loc_of_shr_of_loc (q : Z) (l : location) :
  loc_of_shr_record (shr_record_of_loc q l) = l.
Proof. destruct l as [ | [ | | ]]; reflexivity. Qed.

Lemma finish_spec (s : bool) (q1 e1 : Z) :
  2 ^ 52 <= q1 <= 2 ^ 53 -> -1074 <= e1 <= 970 ->
  exists (m : positive) (j : Z),
    finish s q1 e1 = S754_finite s m (e1 + j) /\
    (j = 0 \/ j = 1) /\ Z.pos m * 2 ^ j = q1 /\ 2 ^ 52 <= Z.pos m < 2 ^ 53.
Proof.
  intros Hq He. unfold finish.
  destruct (Z_lt_le_dec q1 (2 ^ 53)) as [Hlt | Hge].
  - rewrite shr_fexp_53 by lia. simpl shr_m.
    destruct q1 as [ | m | m]; try lia.
    exists m, 0.
    replace (e1 <=? PyFloat.emax - PyFloat.prec) with true
      by (symmetry; apply Z.leb_le; unfold PyFloat.emax, PyFloat.prec; lia).
    rewrite Z.add_0_r.
    split; [reflexivity | ]. split; [left; reflexivity | ]. lia.
  - assert (q1 = 2 ^ 53) by lia. subst q1.
    rewrite shr_fexp_54 by lia.
    exists (2 ^ 52)%positive, 1.
    replace (e1 + 1 <=? PyFloat.emax - PyFloat.prec) with true
      by (symmetry; apply Z.leb_le; unfold PyFloat.emax, PyFloat.prec; lia).
    simpl shr_m.
    split; [reflexivity | ]. split; [right; reflexivity | ]. lia.
Qed.

Lemma new_location_spec (my r : Z) :
  0 < my -> 0 <= r < my ->
  new_location my r = if r =? 0 then loc_Exact else loc_Inexact (2 * r ?= my).
Proof.
  intros Hmy Hr. unfold new_location.
  destruct (Z.even my) eqn:Heven.
  - reflexivity.
  - unfold new_location_odd. destruct (r =? 0); [reflexivity | ].
    f_equal.
    assert (Hodd : Z.odd my = true) by (rewrite <- Z.negb_even, Heven; reflexivity).
    apply Z.odd_spec in Hodd. destruct Hodd as [h Hh].
    destruct (2 * r + 1 ?= my) eqn:Hcmp.
    + rewrite Z.compare_eq_iff in Hcmp. symmetry. rewrite Z.compare_lt_iff. lia.
    + rewrite Z.compare_lt_iff in Hcmp. symmetry. rewrite Z.compare_lt_iff. lia.
    + rewrite Z.compare_gt_iff in Hcmp. symmetry. rewrite Z.compare_gt_iff. lia.
Qed.

Lemma pow2_52 : 2 ^ 52 = 4503599627370496. Proof. reflexivity. Qed.
Lemma pow2_53 : 2 ^ 53 = 9007199254740992. Proof. reflexivity. Qed.
Lemma pow2_54 : 2 ^ 54 = 18014398509481984. Proof. reflexivity. Qed.

Lemma shr_1_of_loc (q : Z) (l : location) :
  0 <= q ->
  shr_m (shr_1 (shr_record_of_loc q l)) = q / 2 /\
  loc_of_shr_record (shr_1 (shr_record_of_loc q l))
  = match l, Z.even q with
    | loc_Exact, true => loc_Exact
    | loc_Exact, false => loc_Inexact Eq
    | loc_Inexact _, true => loc_Inexact Lt
    | loc_Inexact _, false => loc_Inexact Gt
    end.
Proof.
  intros Hq.
  destruct q as [ | p | p]; [ | | lia].
  - destruct l as [ | [ | | ]]; split; reflexivity.
  - destruct p as [p | p | ].
    + rewrite Pos2Z.inj_xI.
      replace ((2 * Z.pos p + 1) / 2) with (Z.pos p)
        by (apply Z.div_unique with (r := 1); lia).
      destruct l as [ | [ | | ]]; split; reflexivity.
    + rewrite Pos2Z.inj_xO.
      replace (2 * Z.pos p / 2) with (Z.pos p)
        by (apply Z.div_unique with (r := 0); lia).
      destruct l as [ | [ | | ]]; split; reflexivity.
    + destruct l as [ | [ | | ]]; split; reflexivity.
Qed.

Lemma round_div_value (s : bool) (q e my r : Z) :
  2 ^ 52 <= q < 2 ^ 54 -> -1074 <= e <= 968 -> 0 < my -> 0 <= r < my ->
  exists (m : positive) (j : Z),
    binary_round_aux PyFloat.prec PyFloat.emax s q e (new_location my r) = S754_finite s m (e + j) /\
    0 <= j <= 2 /\ Z.pos m * 2 ^ j = rounded q my r.
Proof.
  intros Hq He Hmy Hr.
  rewrite binary_round_aux_finish, new_location_spec by assumption.
  unfold rounded.
  destruct (q <? 2 ^ 53) eqn:Hcase.
  - apply Z.ltb_lt in Hcase.
    rewrite shr_fexp_53 by lia.
    rewrite shr_m_of_loc, loc_of_shr_of_loc.
    set (l := if r =? 0 then loc_Exact else loc_Inexact (2 * r ?= my)).
    set (q1 := round_nearest_even q l).
    assert (Hq1 : q1 = q + (if r =? 0 then 0
                            else match 2 * r ?= my with
                                 | Lt => 0
                                 | Eq => if Z.even q then 0 else 1
                                 | Gt => 1
                                 end)).
    { unfold q1, l, round_nearest_even.
      destruct (r =? 0); [lia | ].
      destruct (2 * r ?= my); try lia. destruct (Z.even q); lia. }
    assert (Hq1' : 2 ^ 52 <= q1 <= 2 ^ 53).
    { rewrite Hq1. destruct (r =? 0); [lia | ].
      destruct (2 * r ?= my); try lia. destruct (Z.even q); lia. }
    destruct (finish_spec s q1 e Hq1' ltac:(lia)) as [m [j [Hfin [Hj [Hval _]]]]].
    exists m, j. rewrite Hfin. split; [reflexivity | ].
    split; [lia | ]. rewrite Hval. exact Hq1.
  - apply Z.ltb_ge in Hcase.
    rewrite shr_fexp_54 by lia.
    destruct (shr_1_of_loc q (if r =? 0 then loc_Exact else loc_Inexact (2 * r ?= my)))
      as [Hm Hl]; [lia | ].
    rewrite Hm, Hl.
    assert (Hhalf : 2 ^ 52 <= q / 2 < 2 ^ 53).
    { rewrite pow2_52, pow2_53, pow2_54 in *. split.
      - apply Z.div_le_lower_bound; lia.
      - apply Z.div_lt_upper_bound; lia. }
    assert (Hparity : q = 2 * (q / 2) + (if Z.even q then 0 else 1)).
    { rewrite (Z.div_mod q 2) at 1 by lia. f_equal.
      rewrite <- Z.bit0_mod, Z.bit0_odd, <- Z.negb_even.
      destruct (Z.even q); reflexivity. }
    set (l' := match (if r =? 0 then loc_Exact else loc_Inexact (2 * r ?= my)), Z.even q with
               | loc_Exact, true => loc_Exact
               | loc_Exact, false => loc_Inexact Eq
               | loc_Inexact _, true => loc_Inexact Lt
               | loc_Inexact _, false => loc_Inexact Gt
               end).
    set (q1 := round_nearest_even (q / 2) l').
    assert (Hq1 : 2 * q1 = if Z.even q then q
                           else if r =? 0 then (if Z.even (q / 2) then q - 1 else q + 1)
                                else q + 1).
    { unfold q1, l', round_nearest_even.
      destruct (r =? 0), (Z.even q); try lia.
      destruct (Z.even (q / 2)); lia. }
    assert (Hq1' : 2 ^ 52 <= q1 <= 2 ^ 53).
    { unfold q1, l', round_nearest_even.
      destruct (r =? 0), (Z.even q); try lia.
      destruct (Z.even (q / 2)); lia. }
    destruct (finish_spec s q1 (e + 1) Hq1' ltac:(lia)) as [m [j [Hfin [Hj [Hval _]]]]].
    exists m, (1 + j). rewrite Hfin. split; [f_equal; lia | ].
    split; [lia | ].
    rewrite Z.pow_add_r by lia. rewrite <- Hq1, <- Hval. simpl (2 ^ 1). lia.
Qed.

Lemma quotient_range (mx my q r : Z) :
  2 ^ 52 <= mx < 2 ^ 53 -> 2 ^ 52 <= my < 2 ^ 53 ->
  mx * 2 ^ 53 = q * my + r -> 0 <= r < my ->
  2 ^ 52 <= q < 2 ^ 54.
Proof.
  rewrite pow2_52, pow2_53, pow2_54. intros Hmx Hmy Hdiv Hr. split; nia.
Qed.

Lemma scaled_bounds (A S mx my hx hs q r c : Z) :
  0 < A -> 0 < S ->
  0 < mx -> 0 < my ->
  0 <= hx -> 0 <= hs <= 53 ->
  A * 2 ^ hx = 2 * mx -> S * 2 ^ hs = 2 * my ->
  mx * 2 ^ 53 = q * my + r ->
  (c - 1) * S < A <= c * S ->
  (q * my + r) * S = A * my * 2 ^ (53 + hx - hs) /\
  (c - 1) * 2 ^ (53 + hx - hs) * my < q * my + r <= c * 2 ^ (53 + hx - hs) * my.
Proof.
  intros HA HS Hmx Hmy Hhx Hhs HAx HSy Hdiv Hc.
  assert (HP : 2 ^ (53 + hx - hs) * 2 ^ hs = 2 ^ 53 * 2 ^ hx).
  { rewrite <- !Z.pow_add_r by lia. f_equal. lia. }
  assert (HX : 0 < 2 ^ hx) by (apply Z.pow_pos_nonneg; lia).
  assert (HY : 0 < 2 ^ hs) by (apply Z.pow_pos_nonneg; lia).
  assert (HPpos : 0 < 2 ^ (53 + hx - hs)) by (apply Z.pow_pos_nonneg; lia).
  set (P := 2 ^ (53 + hx - hs)) in *.
  set (X := 2 ^ hx) in *. set (Y := 2 ^ hs) in *.
  assert (Hlink : (q * my + r) * S = A * my * P).
  { apply (Z.mul_cancel_r _ _ Y); [lia | ].
    rewrite <- Hdiv.
    replace (mx * 2 ^ 53 * S * Y) with (mx * 2 ^ 53 * (S * Y)) by ring.
    replace (A * my * P * Y) with (A * my * (P * Y)) by ring.
    rewrite HSy, HP.
    replace (A * my * (2 ^ 53 * X)) with ((A * X) * my * 2 ^ 53) by ring.
    rewrite HAx. ring. }
  split; [exact Hlink | ].
  assert (HmyP : 0 < my * P) by (apply Z.mul_pos_pos; lia).
  split.
  - apply (Z.mul_lt_mono_pos_r S); [lia | ].
    rewrite Hlink.
    replace ((c - 1) * P * my * S) with (((c - 1) * S) * (my * P)) by ring.
    replace (A * my * P) with (A * (my * P)) by ring.
    apply Z.mul_lt_mono_pos_r; lia.
  - apply (Z.mul_le_mono_pos_r _ _ S); [lia | ].
    rewrite Hlink.
    replace (c * P * my * S) with ((c * S) * (my * P)) by ring.
    replace (A * my * P) with (A * (my * P)) by ring.
    apply Z.mul_le_mono_nonneg_r; lia.
Qed.

Lemma rounded_between (A S my q r c E : Z) :
  0 < A <= 2 ^ 53 -> 0 < S ->
  0 < my -> 0 <= r < my -> 2 ^ 52 <= q ->
  0 <= E ->
  (q * my + r) * S = A * my * 2 ^ E ->
  (c - 1) * 2 ^ E * my < q * my + r <= c * 2 ^ E * my ->
  (c - 1) * S < A <= c * S ->
  (c - 1) * 2 ^ E < rounded q my r <= c * 2 ^ E.
Proof.
  intros HA HS Hmy Hr Hq HE Hlink Hbounds Hc.
  assert (HP : 0 < 2 ^ E) by (apply Z.pow_pos_nonneg; lia).
  assert (Hparity : E = 0 \/ exists P', 2 ^ E = 2 * P').
  { destruct (Z.eq_dec E 0) as [HE0 | HE0]; [left; exact HE0 | right].
    exists (2 ^ (E - 1)). rewrite <- Z.pow_succ_r by lia. f_equal. lia. }
  set (P := 2 ^ E) in *.
  rewrite pow2_52 in Hq. rewrite pow2_53 in HA.
  (* integer bounds on q *)
  assert (Hqup : q <= c * P) by nia.
  assert (Hqlow : (c - 1) * P <= q) by nia.
  assert (Hcpos : 1 <= c - 1 \/ (c - 1) * P < q).
  { destruct (Z_lt_le_dec ((c - 1) * P) q) as [Hlt | Hge]; [right; exact Hlt | left].
    nia. }
  unfold rounded. rewrite pow2_53.
  destruct (q <? 9007199254740992) eqn:Hcase.
  - (* 53 digits *)
    destruct (r =? 0) eqn:Hr0.
    + apply Z.eqb_eq in Hr0. subst r. split; [nia | lia].
    + apply Z.eqb_neq in Hr0.
      assert (Hstrict : q < c * P) by nia.
      destruct (2 * r ?= my) eqn:Hcmp.
      * rewrite Z.compare_eq_iff in Hcmp.
        destruct (Z.even q); [ | lia].
        split; [ | lia].
        destruct (Z_lt_le_dec ((c - 1) * P) (q + 0)) as [Hlt | Hge]; [exact Hlt | ].
        exfalso. assert (Hq' : q = (c - 1) * P) by lia.
        assert (HrS : r * S = my * P * (A - (c - 1) * S)) by nia.
        assert (HS2 : 2 * P <= S) by nia.
        nia.
      * rewrite Z.compare_lt_iff in Hcmp.
        split; [ | lia].
        destruct (Z_lt_le_dec ((c - 1) * P) (q + 0)) as [Hlt | Hge]; [exact Hlt | ].
        exfalso. assert (Hq' : q = (c - 1) * P) by lia.
        assert (HrS : r * S = my * P * (A - (c - 1) * S)) by nia.
        assert (HS2 : 2 * P <= S) by nia.
        nia.
      * lia.
  - (* 54 digits *)
    apply Z.ltb_ge in Hcase.
    destruct (Z.even q) eqn:Heven.
    + split; [ | lia].
      destruct (Z_lt_le_dec ((c - 1) * P) q) as [Hlt | Hge]; [exact Hlt | ].
      exfalso. assert (Hq' : q = (c - 1) * P) by lia.
      assert (Hrpos : 0 < r) by nia.
      assert (HrS : r * S = my * P * (A - (c - 1) * S)) by nia.
      assert (HS2 : P < S) by nia.
      nia.
    + assert (Hodd : Z.odd q = true) by (rewrite <- Z.negb_even, Heven; reflexivity).
      apply Z.odd_spec in Hodd. destruct Hodd as [h Hh].
      destruct (r =? 0) eqn:Hr0.
      * apply Z.eqb_eq in Hr0. subst r.
        assert (HqS : q * S = A * P) by nia.
        assert (HEpos : exists P', P = 2 * P').
        { destruct Hparity as [HE0 | Hex]; [ | exact Hex].
          exfalso. subst E. change P with 1 in *. nia. }
        destruct HEpos as [P' HP'].
        assert (Hstrict : q < c * P) by nia.
        assert (Hlowstrict : (c - 1) * P < q) by nia.
        destruct (Z.even (q / 2)).
        -- split; [ | lia].
           destruct (Z_lt_le_dec ((c - 1) * P) (q - 1)) as [Hlt | Hge]; [exact Hlt | ].
           exfalso. assert (Hq' : q = (c - 1) * P + 1) by lia.
           assert (HSP : S = P * (A - (c - 1) * S)) by nia.
           assert (HS2 : P <= S) by nia.
           nia.
        -- lia.
      * apply Z.eqb_neq in Hr0.
        assert (Hstrict : q < c * P) by nia.
        lia.
Qed.

Lemma iter_xO_pow2 (p k : positive) :
  Z.pos (Pos.iter xO p k) = Z.pos p * 2 ^ Z.pos k.
Proof.
  induction k as [ | k IH] using Pos.peano_ind.
  - simpl. lia.
  - rewrite Pos.iter_succ, Pos2Z.inj_xO, IH, Pos2Z.inj_succ, Z.pow_succ_r by lia.
    ring.
Qed.

(** [float( n )] is exact up to 2^53. *)
Lemma binary_round_exact (s : bool) (p : positive) :
  Z.pos p <= 2 ^ 53 ->
  exists (m : positive) (e : Z),
    binary_round PyFloat.prec PyFloat.emax s p 0 = S754_finite s m e /\
    2 ^ 52 <= Z.pos m < 2 ^ 53 /\ -52 <= e <= 1 /\
    Z.pos p * 2 ^ (1 - e) = 2 * Z.pos m.
Proof.
  intros Hp.
  destruct (Z.eq_dec (Z.pos p) (2 ^ 53)) as [Htop | Hbelow].
  - assert (p = (2 ^ 53)%positive) by lia. subst p.
    exists (2 ^ 52)%positive, 1.
    split; [destruct s; vm_compute; reflexivity | ].
    split; [vm_compute; split; [discriminate | reflexivity] | ].
    split; [lia | reflexivity].
  - pose proof (digits2_pos_bounds p) as [Hlow Hhigh].
    set (d := Z.pos (digits2_pos p)) in *.
    assert (Hd : 1 <= d <= 53).
    { split; [unfold d; lia | ].
      destruct (Z_lt_le_dec 53 d) as [Hgt | Hle]; [ | exact Hle].
      exfalso.
      assert (2 ^ 53 <= 2 ^ (d - 1)) by (apply Z.pow_le_mono_r; lia).
      lia. }
    unfold binary_round. fold d.
    assert (Hfexp : fexp PyFloat.prec PyFloat.emax (d + 0) = d - 53).
    { unfold fexp, emin, PyFloat.prec, PyFloat.emax. lia. }
    rewrite Hfexp. unfold shl_align.
    destruct (d - 53 - 0) as [ | k | k] eqn:Hshift; [ | lia | ].
    + (* 53 digits already *)
      assert (Hd53 : d = 53) by lia.
      rewrite Hd53 in Hlow, Hhigh. simpl (53 - 1) in Hlow.
      rewrite binary_round_aux_finish, shr_fexp_53 by lia.
      simpl shr_m. simpl loc_of_shr_record. simpl round_nearest_even.
      destruct (finish_spec s (Z.pos p) 0 ltac:(lia) ltac:(lia))
        as [m [j [Hfin [Hj [Hval Hm]]]]].
      assert (Hj0 : j = 0).
      { destruct Hj as [Hj | Hj]; [exact Hj | ]. subst j. simpl (2 ^ 1) in Hval. lia. }
      subst j. exists m, 0. rewrite Hfin. simpl (2 ^ 0) in Hval.
      split; [reflexivity | ]. split; [exact Hm | ]. split; [lia | ].
      simpl (1 - 0). simpl (2 ^ 1). lia.
    + (* shifted left by 53 - d *)
      assert (Hk : Z.pos k = 53 - d) by lia.
      set (mz := Pos.iter xO p k).
      assert (Hmz : Z.pos mz = Z.pos p * 2 ^ (53 - d)).
      { unfold mz. rewrite iter_xO_pow2, Hk. reflexivity. }
      assert (Hrange : 2 ^ 52 <= Z.pos mz < 2 ^ 53).
      { rewrite Hmz.
        assert (Hsplit52 : 2 ^ 52 = 2 ^ (d - 1) * 2 ^ (53 - d)).
        { rewrite <- Z.pow_add_r by lia. f_equal. lia. }
        assert (Hsplit53 : 2 ^ 53 = 2 ^ d * 2 ^ (53 - d)).
        { rewrite <- Z.pow_add_r by lia. f_equal. lia. }
        assert (Hpow : 0 < 2 ^ (53 - d)) by (apply Z.pow_pos_nonneg; lia).
        rewrite Hsplit52, Hsplit53. split.
        - apply Z.mul_le_mono_nonneg_r; lia.
        - apply Z.mul_lt_mono_pos_r; lia. }
      rewrite binary_round_aux_finish, shr_fexp_53 by lia.
      simpl shr_m. simpl loc_of_shr_record. simpl round_nearest_even.
      destruct (finish_spec s (Z.pos mz) (d - 53) ltac:(lia) ltac:(lia))
        as [m [j [Hfin [Hj [Hval Hm]]]]].
      assert (Hj0 : j = 0).
      { destruct Hj as [Hj | Hj]; [exact Hj | ]. subst j. simpl (2 ^ 1) in Hval. lia. }
      subst j. exists m, (d - 53). rewrite Hfin, Z.add_0_r. simpl (2 ^ 0) in Hval.
      split; [reflexivity | ]. split; [exact Hm | ]. split; [lia | ].
      replace (1 - (d - 53)) with (Z.succ (53 - d)) by lia.
      rewrite Z.pow_succ_r by lia. lia.
Qed.

Lemma float_exact (n : Z) :
  n <> 0 -> Z.abs n <= 2 ^ 53 ->
  exists (m : positive) (e : Z),
    PyFloat.float n = Returns (S754_finite (n <? 0) m e) /\
    2 ^ 52 <= Z.pos m < 2 ^ 53 /\ -52 <= e <= 1 /\
    Z.abs n * 2 ^ (1 - e) = 2 * Z.pos m.
Proof.
  intros Hn Habs. unfold PyFloat.float, binary_normalize.
  destruct n as [ | p | p]; [contradiction Hn; reflexivity | | ].
  - destruct (binary_round_exact false p Habs) as [m [e [Hround Hrest]]].
    exists m, e. rewrite Hround. split; [reflexivity | exact Hrest].
  - destruct (binary_round_exact true p Habs) as [m [e [Hround Hrest]]].
    exists m, e. rewrite Hround. split; [reflexivity | exact Hrest].
Qed.

Lemma SFdiv_normal (sx sy : bool) (mx my : positive) (ex ey : Z) :
  2 ^ 52 <= Z.pos mx < 2 ^ 53 -> 2 ^ 52 <= Z.pos my < 2 ^ 53 ->
  -52 <= ex <= 1 -> -52 <= ey <= 1 ->
  SFdiv PyFloat.prec PyFloat.emax (S754_finite sx mx ex) (S754_finite sy my ey)
  = binary_round_aux PyFloat.prec PyFloat.emax (xorb sx sy)
      (Z.pos mx * 2 ^ 53 / Z.pos my) (ex - ey - 53)
      (new_location (Z.pos my) ((Z.pos mx * 2 ^ 53) mod Z.pos my)).
Proof.
  intros Hmx Hmy Hex Hey.
  unfold SFdiv, SFdiv_core_binary.
  rewrite (Zdigits2_53 (Z.pos mx) Hmx), (Zdigits2_53 (Z.pos my) Hmy).
  assert (Hfexp : fexp PyFloat.prec PyFloat.emax (53 + ex - (53 + ey)) = ex - ey - 53).
  { unfold fexp, emin, PyFloat.prec, PyFloat.emax. lia. }
  rewrite Hfexp.
  replace (Z.min (ex - ey - 53) (ex - ey)) with (ex - ey - 53) by lia.
  replace (ex - ey - (ex - ey - 53)) with 53 by lia.
  rewrite Z.shiftl_mul_pow2 by lia.
  unfold Z.div, Z.modulo.
  destruct (Z.div_eucl (Z.pos mx * 2 ^ 53) (Z.pos my)) as [q r].
  reflexivity.
Qed.

Lemma ceil_finite_between (m : positive) (e j E c : Z) :
  e = j - E -> 0 <= j -> 0 <= E ->
  (c - 1) * 2 ^ E < Z.pos m * 2 ^ j <= c * 2 ^ E ->
  math.ceil_finite false m e = c.
Proof.
  intros He Hj HE Hbounds.
  assert (HPE : 0 < 2 ^ E) by (apply Z.pow_pos_nonneg; lia).
  assert (HPj : 0 < 2 ^ j) by (apply Z.pow_pos_nonneg; lia).
  unfold math.ceil_finite, cond_Zopp.
  destruct e as [ | k | k] eqn:Hsign.
  - assert (j = E) by lia. subst j. nia.
  - assert (Hsplit : 2 ^ j = 2 ^ Z.pos k * 2 ^ E).
    { rewrite <- Z.pow_add_r by lia. f_equal. lia. }
    rewrite Hsplit in Hbounds. nia.
  - assert (Hsplit : 2 ^ E = 2 ^ Z.pos k * 2 ^ j).
    { rewrite <- Z.pow_add_r by lia. f_equal. lia. }
    assert (HPk : 0 < 2 ^ Z.pos k) by (apply Z.pow_pos_nonneg; lia).
    rewrite Hsplit in Hbounds.
    assert (Hm : (c - 1) * 2 ^ Z.pos k < Z.pos m <= c * 2 ^ Z.pos k) by nia.
    assert (Hdiv : - Z.pos m / 2 ^ Z.pos k = - c).
    { symmetry. apply Z.div_unique with (r := c * 2 ^ Z.pos k - Z.pos m); lia. }
    rewrite Hdiv. lia.
Qed.

Lemma exact_ceiling_spec (a b c : Z) :
  0 < b -> (c - 1) * b < a <= c * b -> exact_ceiling a b = c.
Proof.
  intros Hb Hc. unfold exact_ceiling.
  assert (Hdiv : - a / b = - c).
  { symmetry. apply Z.div_unique with (r := c * b - a); lia. }
  rewrite Hdiv. lia.
Qed.

Lemma exact_ceiling_bounds (a b : Z) :
  0 < b -> (exact_ceiling a b - 1) * b < a <= exact_ceiling a b * b.
Proof.
  intros Hb. unfold exact_ceiling.
  pose proof (Z.div_mod (- a) b ltac:(lia)) as Hdm.
  pose proof (Z.mod_pos_bound (- a) b Hb) as Hmod.
  nia.
Qed.

Lemma exact_ceiling_opp (a b : Z) :
  b <> 0 -> exact_ceiling (- a) (- b) = exact_ceiling a b.
Proof.
  intros Hb. unfold exact_ceiling.
  rewrite Z.opp_involutive.
  rewrite <- (Z.div_opp_opp (- a) b) by exact Hb.
  rewrite Z.opp_involutive. reflexivity.
Qed.

(** The ceiling of the quotient of two floats that hold integers. *)
Lemma ceil_quotient_exact_pos (low high step : Z) :
  0 < Z.abs (high - low) <= 2 ^ 53 -> 0 < Z.abs step <= 2 ^ 53 ->
  (high - low <? 0) = (step <? 0) ->
  Range3.ceil_quotient low high step
  = Returns (exact_ceiling (Z.abs (high - low)) (Z.abs step)).
Proof.
  intros HA HS Hsign.
  set (A := Z.abs (high - low)) in *. set (S := Z.abs step) in *.
  unfold Range3.ceil_quotient, PyFloat.truediv.
  destruct (float_exact (high - low) ltac:(lia) ltac:(lia))
    as [mx [ex [Hx [Hmx [Hex HAx]]]]].
  destruct (float_exact step ltac:(lia) ltac:(lia))
    as [my [ey [Hy [Hmy [Hey HSy]]]]].
  fold A in HAx. fold S in HSy.
  rewrite Hx. cbn [bind]. rewrite Hy. cbn [bind].
  rewrite SFdiv_normal by assumption.
  rewrite Hsign, xorb_nilpotent.
  set (T := Z.pos mx * 2 ^ 53).
  set (q := T / Z.pos my). set (r := T mod Z.pos my).
  assert (Hdiv : T = q * Z.pos my + r).
  { unfold q, r. rewrite Z.mul_comm. apply Z.div_mod. lia. }
  assert (Hr : 0 <= r < Z.pos my) by (apply Z.mod_pos_bound; lia).
  pose proof (quotient_range (Z.pos mx) (Z.pos my) q r Hmx Hmy Hdiv Hr) as Hq.
  destruct (round_div_value false q (ex - ey - 53) (Z.pos my) r Hq
              ltac:(lia) ltac:(lia) Hr) as [m [j [Hround [Hj Hval]]]].
  rewrite Hround. simpl math.ceil. f_equal.
  set (c := exact_ceiling A S).
  pose proof (exact_ceiling_bounds A S ltac:(lia)) as Hc. fold c in Hc.
  set (hx := 1 - ex) in *. set (hs := 1 - ey) in *.
  destruct (scaled_bounds A S (Z.pos mx) (Z.pos my) hx hs q r c)
    as [Hlink Hbounds]; try lia; try exact Hdiv.
  assert (HE : 0 <= 53 + hx - hs) by (unfold hx, hs; lia).
  assert (Hbetween : (c - 1) * 2 ^ (53 + hx - hs) < rounded q (Z.pos my) r
                     <= c * 2 ^ (53 + hx - hs)).
  { apply (rounded_between A S); try assumption; lia. }
  rewrite <- Hval in Hbetween.
  apply (ceil_finite_between m (ex - ey - 53 + j) j (53 + hx - hs) c);
    try assumption; unfold hx, hs; lia.
Qed.

Lemma ceil_quotient_of_equal_bounds (low step : Z) :
  0 < Z.abs step <= 2 ^ 53 ->
  Range3.ceil_quotient low low step = Returns 0.
Proof.
  intros Hstep. unfold Range3.ceil_quotient, PyFloat.truediv.
  rewrite Z.sub_diag.
  destruct (float_exact step ltac:(lia) ltac:(lia)) as [my [ey [Hy _]]].
  rewrite Hy. reflexivity.
Qed.

Lemma length_of_exact (low high step : Z) :
  Z.abs (high - low) <= 2 ^ 53 -> 0 < Z.abs step <= 2 ^ 53 ->
  (low < high /\ 0 < step) \/ (high <= low /\ step < 0) ->
  Range3.length_of low high step = Returns (Some (exact_ceiling (high - low) step)).
Proof.
  intros Hdiff Hstep Hdir. unfold Range3.length_of, round, int.
  replace (step =? 0) with false by (symmetry; apply Z.eqb_neq; lia).
  destruct Hdir as [[Hlt Hpos] | [Hle Hneg]].
  - replace (low <? high) with true by (symmetry; apply Z.ltb_lt; lia).
    replace (step <? 0) with false by (symmetry; apply Z.ltb_ge; lia).
    rewrite ceil_quotient_exact_pos.
    + rewrite (Z.abs_eq (high - low)), (Z.abs_eq step) by lia.
      pose proof (exact_ceiling_bounds (high - low) step Hpos) as Hc.
      cbn [bind].
      replace (exact_ceiling (high - low) step <? 0) with false
        by (symmetry; apply Z.ltb_ge; nia).
      reflexivity.
    + lia.
    + exact Hstep.
    + replace (high - low <? 0) with false by (symmetry; apply Z.ltb_ge; lia).
      symmetry. apply Z.ltb_ge. lia.
  - replace (low <? high) with false by (symmetry; apply Z.ltb_ge; lia).
    replace (0 <? step) with false by (symmetry; apply Z.ltb_ge; lia).
    destruct (Z.eq_dec high low) as [Heq | Hne].
    + subst high. rewrite ceil_quotient_of_equal_bounds by exact Hstep.
      rewrite Z.sub_diag. reflexivity.
    + rewrite ceil_quotient_exact_pos.
      * rewrite (Z.abs_neq (high - low)), (Z.abs_neq step) by lia.
        rewrite exact_ceiling_opp by lia.
        assert (Hc : 0 <= exact_ceiling (- (high - low)) (- step)).
        { pose proof (exact_ceiling_bounds (- (high - low)) (- step) ltac:(lia)). nia. }
        rewrite exact_ceiling_opp in Hc by lia.
        cbn [bind].
        replace (exact_ceiling (high - low) step <? 0) with false
          by (symmetry; apply Z.ltb_ge; exact Hc).
        reflexivity.
      * lia.
      * exact Hstep.
      * replace (high - low <? 0) with true by (symmetry; apply Z.ltb_lt; lia).
        symmetry. apply Z.ltb_lt. lia.
Qed.

(** ** The nodes over any compiler *)

Section Properties.
Context {nodes : NodeBases} {helpers : Helpers}.

Implicit Types (constraint_collection : ConstraintCollection).

(** *** Iteration values of the one-argument node *)

Lemma range1_value_within (self : Range1.t) constraint_collection (low index : Z) :
  getIntegerValue (Range1.getLow self) constraint_collection = Some low ->
  index <= Z.max 0 low ->
  Range1.getIterationValue self index constraint_collection
  = Returns (Some (makeConstantReplacementNode index self)).
Proof.
  intros Hlow Hindex.
  unfold Range1.getIterationValue, Range1.getIterationLength, int.
  rewrite Hlow. simpl.
  replace (Z.max 0 low <? index) with false by (symmetry; apply Z.ltb_ge; lia).
  reflexivity.
Qed.

Lemma range1_value_beyond (self : Range1.t) constraint_collection (low index : Z) :
  getIntegerValue (Range1.getLow self) constraint_collection = Some low ->
  Z.max 0 low < index ->
  Range1.getIterationValue self index constraint_collection = Returns None.
Proof.
  intros Hlow Hindex.
  unfold Range1.getIterationValue, Range1.getIterationLength.
  rewrite Hlow. simpl.
  replace (Z.max 0 low <? index) with true by (symmetry; apply Z.ltb_lt; lia).
  reflexivity.
Qed.

(** C1, at the bound itself.  For a one-argument node whose operand has the
    known integer value [low], [getIterationValue] at the index
    [max( 0, low )] is not absent: the test is [element_index > length], so
    the index equal to the length is answered with a constant node of that
    index, where the claim has "out of range". *)
Theorem range1_value_at_length (self : Range1.t) constraint_collection (low : Z) :
  getIntegerValue (Range1.getLow self) constraint_collection = Some low ->
  Range1.getIterationLength self constraint_collection = Returns (Some (Z.max 0 low)) /\
  Range1.getIterationValue self (Z.max 0 low) constraint_collection
  = Returns (Some (makeConstantReplacementNode (Z.max 0 low) self)).
Proof.
  intros Hlow. split.
  - unfold Range1.getIterationLength. rewrite Hlow. reflexivity.
  - apply (range1_value_within self constraint_collection low); [exact Hlow | lia].
Qed.

(** *** Iteration values of the two-argument node *)

Lemma range2_length (self : Range2.t) constraint_collection (low high : Z) :
  getIntegerValue (Range2.getLow self) constraint_collection = Some low ->
  getIntegerValue (Range2.getHigh self) constraint_collection = Some high ->
  Range2.getIterationLength self constraint_collection
  = Returns (Some (Z.max 0 (high - low))).
Proof.
  intros Hlow Hhigh. unfold Range2.getIterationLength.
  rewrite Hlow, Hhigh. reflexivity.
Qed.

Lemma range2_value_within (self : Range2.t) constraint_collection (low high index : Z) :
  getIntegerValue (Range2.getLow self) constraint_collection = Some low ->
  getIntegerValue (Range2.getHigh self) constraint_collection = Some high ->
  0 <= index < Z.max 0 (high - low) ->
  Range2.getIterationValue self index constraint_collection
  = Returns (Some (makeConstantReplacementNode (low + index) self)).
Proof.
  intros Hlow Hhigh Hindex. unfold Range2.getIterationValue.
  rewrite Hlow, Hhigh. simpl.
  replace (high <=? low + index) with false by (symmetry; apply Z.leb_gt; lia).
  reflexivity.
Qed.

Lemma range2_value_beyond (self : Range2.t) constraint_collection (low high index : Z) :
  getIntegerValue (Range2.getLow self) constraint_collection = Some low ->
  getIntegerValue (Range2.getHigh self) constraint_collection = Some high ->
  Z.max 0 (high - low) <= index ->
  Range2.getIterationValue self index constraint_collection = Returns None.
Proof.
  intros Hlow Hhigh Hindex. unfold Range2.getIterationValue.
  rewrite Hlow, Hhigh. simpl.
  replace (high <=? low + index) with true by (symmetry; apply Z.leb_le; lia).
  reflexivity.
Qed.

(** *** Iteration values of the three-argument node *)

Lemma range3_length (self : Range3.t) constraint_collection (low high step : Z) :
  getIntegerValue (Range3.getLow self) constraint_collection = Some low ->
  getIntegerValue (Range3.getHigh self) constraint_collection = Some high ->
  getIntegerValue (Range3.getStep self) constraint_collection = Some step ->
  Range3.getIterationLength self constraint_collection
  = Range3.length_of low high step.
Proof.
  intros Hlow Hhigh Hstep. unfold Range3.getIterationLength.
  rewrite Hlow, Hhigh, Hstep. reflexivity.
Qed.

Lemma range3_value (self : Range3.t) constraint_collection (low high step index : Z) :
  getIntegerValue (Range3.getLow self) constraint_collection = Some low ->
  getIntegerValue (Range3.getHigh self) constraint_collection = Some high ->
  getIntegerValue (Range3.getStep self) constraint_collection = Some step ->
  Range3.getIterationValue self index constraint_collection
  = if high <=? low + step * index then Returns None
    else Returns (Some (makeConstantReplacementNode (low + step * index) self)).
Proof.
  intros Hlow Hhigh Hstep. unfold Range3.getIterationValue.
  rewrite Hlow, Hhigh, Hstep. reflexivity.
Qed.

(** Every element of a descending range lies above [high], and the test
    [result >= high] answers all of them with [None]. *)
Lemma range3_descending_values_absent
    (self : Range3.t) constraint_collection (low high step index : Z) :
  getIntegerValue (Range3.getLow self) constraint_collection = Some low ->
  getIntegerValue (Range3.getHigh self) constraint_collection = Some high ->
  getIntegerValue (Range3.getStep self) constraint_collection = Some step ->
  step < 0 -> high < low + step * index ->
  Range3.getIterationValue self index constraint_collection = Returns None.
Proof.
  intros Hlow Hhigh Hstep Hneg Helement.
  rewrite (range3_value self constraint_collection low high step index) by assumption.
  replace (high <=? low + step * index) with true by (symmetry; apply Z.leb_le; lia).
  reflexivity.
Qed.

(** C2, as the code answers it.  For the three-argument node with the known
    operand values 10, 0 and -2, [getIterationLength] returns 5, and
    [getIterationValue] returns [None] at each of the indices 0 to 4: the
    values 10, 8, 6, 4, 2 of the claim all satisfy [result >= high]. *)
Theorem range3_10_0_minus2 (self : Range3.t) constraint_collection :
  getIntegerValue (Range3.getLow self) constraint_collection = Some 10 ->
  getIntegerValue (Range3.getHigh self) constraint_collection = Some 0 ->
  getIntegerValue (Range3.getStep self) constraint_collection = Some (-2) ->
  Range3.getIterationLength self constraint_collection = Returns (Some 5) /\
  forall index, 0 <= index <= 4 ->
    Range3.getIterationValue self index constraint_collection = Returns None.
Proof.
  intros Hlow Hhigh Hstep. split.
  - rewrite (range3_length self constraint_collection 10 0 (-2)) by assumption.
    vm_compute. reflexivity.
  - intros index Hindex.
    apply (range3_descending_values_absent self constraint_collection 10 0 (-2));
      trivial; lia.
Qed.

(** C3, as the code answers it.  For a three-argument node whose step has the
    known value 0 and whose other operands have known values [low < high],
    [getIterationLength] returns [None], yet [getIterationValue] returns a
    constant node of the value [low] at every index: only the length gives
    up on a zero step. *)
Theorem range3_zero_step_value
    (self : Range3.t) constraint_collection (low high index : Z) :
  getIntegerValue (Range3.getLow self) constraint_collection = Some low ->
  getIntegerValue (Range3.getHigh self) constraint_collection = Some high ->
  getIntegerValue (Range3.getStep self) constraint_collection = Some 0 ->
  low < high ->
  Range3.getIterationLength self constraint_collection = Returns None /\
  Range3.getIterationValue self index constraint_collection
  = Returns (Some (makeConstantReplacementNode low self)).
Proof.
  intros Hlow Hhigh Hstep Hlt. split.
  - rewrite (range3_length self constraint_collection low high 0) by assumption.
    reflexivity.
  - rewrite (range3_value self constraint_collection low high 0 index) by assumption.
    replace (low + 0 * index) with low by lia.
    replace (high <=? low) with false by (symmetry; apply Z.leb_gt; lia).
    reflexivity.
Qed.

Lemma range3_zero_step_length (self : Range3.t) constraint_collection :
  getIntegerValue (Range3.getStep self) constraint_collection = Some 0 ->
  Range3.getIterationLength self constraint_collection = Returns None.
Proof.
  intros Hstep. unfold Range3.getIterationLength.
  destruct (getIntegerValue (Range3.getLow self) constraint_collection);
    [ | reflexivity].
  destruct (getIntegerValue (Range3.getHigh self) constraint_collection);
    [ | reflexivity].
  rewrite Hstep. reflexivity.
Qed.

(** *** Unknown operands *)

Lemma range1_value_unknown (self : Range1.t) constraint_collection (index : Z) :
  getIntegerValue (Range1.getLow self) constraint_collection = None ->
  Range1.getIterationValue self index constraint_collection = Returns None.
Proof.
  intros Hlow. unfold Range1.getIterationValue, Range1.getIterationLength.
  rewrite Hlow. reflexivity.
Qed.

Lemma range2_value_unknown (self : Range2.t) constraint_collection (index : Z) :
  getIntegerValue (Range2.getLow self) constraint_collection = None \/
  getIntegerValue (Range2.getHigh self) constraint_collection = None ->
  Range2.getIterationValue self index constraint_collection = Returns None.
Proof.
  intros [Hlow | Hhigh]; unfold Range2.getIterationValue.
  - rewrite Hlow. reflexivity.
  - rewrite Hhigh.
    destruct (getIntegerValue (Range2.getLow self) constraint_collection); reflexivity.
Qed.

Lemma range3_value_unknown_bound (self : Range3.t) constraint_collection (index : Z) :
  getIntegerValue (Range3.getLow self) constraint_collection = None \/
  getIntegerValue (Range3.getHigh self) constraint_collection = None ->
  Range3.getIterationValue self index constraint_collection = Returns None.
Proof.
  intros [Hlow | Hhigh]; unfold Range3.getIterationValue.
  - rewrite Hlow. reflexivity.
  - rewrite Hhigh.
    destruct (getIntegerValue (Range3.getLow self) constraint_collection); reflexivity.
Qed.

(** C4, as the code answers it.  For a three-argument node whose low and high
    operands have known integer values and whose step has none,
    [getIterationValue] raises [TypeError] at every index: the step is
    multiplied with the index without a test for [None]. *)
Theorem range3_value_unknown_step_raises
    (self : Range3.t) constraint_collection (low high index : Z) :
  getIntegerValue (Range3.getLow self) constraint_collection = Some low ->
  getIntegerValue (Range3.getHigh self) constraint_collection = Some high ->
  getIntegerValue (Range3.getStep self) constraint_collection = None ->
  Range3.getIterationValue self index constraint_collection = Raises TypeError.
Proof.
  intros Hlow Hhigh Hstep. unfold Range3.getIterationValue.
  rewrite Hlow, Hhigh, Hstep. reflexivity.
Qed.

(** C5, as the code answers it.  For the three-argument node with the known
    operand values 0, 2^60 + 1 and 2^60, [getIterationLength] returns 1,
    while the exact ceiling of [(high - low) / step] is 2, the length of
    [range( 0, 2**60 + 1, 2**60 )]: the difference is rounded to the double
    2^60 before the division. *)
Theorem range3_length_rounds_large_operands (self : Range3.t) constraint_collection :
  getIntegerValue (Range3.getLow self) constraint_collection = Some 0 ->
  getIntegerValue (Range3.getHigh self) constraint_collection = Some (2 ^ 60 + 1) ->
  getIntegerValue (Range3.getStep self) constraint_collection = Some (2 ^ 60) ->
  Range3.getIterationLength self constraint_collection = Returns (Some 1) /\
  exact_ceiling (2 ^ 60 + 1 - 0) (2 ^ 60) = 2.
Proof.
  intros Hlow Hhigh Hstep. split.
  - rewrite (range3_length self constraint_collection 0 (2 ^ 60 + 1) (2 ^ 60))
      by assumption.
    vm_compute. reflexivity.
  - vm_compute. reflexivity.
Qed.

(** X1.  For a three-argument node with known operand values whose
    difference [high - low] and whose step are at most 2^53 in magnitude,
    with a step other than 0 in the direction of the bounds,
    [getIterationLength] returns the exact ceiling of
    [(high - low) / step]. *)
Theorem range3_length_exact_up_to_2_53
    (self : Range3.t) constraint_collection (low high step : Z) :
  getIntegerValue (Range3.getLow self) constraint_collection = Some low ->
  getIntegerValue (Range3.getHigh self) constraint_collection = Some high ->
  getIntegerValue (Range3.getStep self) constraint_collection = Some step ->
  Z.abs (high - low) <= 2 ^ 53 -> 0 < Z.abs step <= 2 ^ 53 ->
  (low < high /\ 0 < step) \/ (high <= low /\ step < 0) ->
  Range3.getIterationLength self constraint_collection
  = Returns (Some (exact_ceiling (high - low) step)).
Proof.
  intros Hlow Hhigh Hstep Hdiff Hmagnitude Hdir.
  rewrite (range3_length self constraint_collection low high step) by assumption.
  apply length_of_exact; assumption.
Qed.

(** X2.  For a two-argument node with the known operand values [low] and
    [high], [getIterationLength] returns [max( 0, high - low )],
    [getIterationValue] returns a constant node of [low + index] at every
    index from 0 up to the length, and [None] at every index from the length
    on. *)
Theorem range2_length_and_values
    (self : Range2.t) constraint_collection (low high : Z) :
  getIntegerValue (Range2.getLow self) constraint_collection = Some low ->
  getIntegerValue (Range2.getHigh self) constraint_collection = Some high ->
  Range2.getIterationLength self constraint_collection
  = Returns (Some (Z.max 0 (high - low))) /\
  (forall index, 0 <= index < Z.max 0 (high - low) ->
     Range2.getIterationValue self index constraint_collection
     = Returns (Some (makeConstantReplacementNode (low + index) self))) /\
  (forall index, Z.max 0 (high - low) <= index ->
     Range2.getIterationValue self index constraint_collection = Returns None).
Proof.
  intros Hlow Hhigh. split; [ | split].
  - apply range2_length; assumption.
  - intros index Hindex.
    apply (range2_value_within self constraint_collection low high); assumption.
  - intros index Hindex.
    apply (range2_value_beyond self constraint_collection low high); assumption.
Qed.

(** *** Iteration lengths *)

(** C6.  Under every constraint collection, a length that
    [getIterationLength] returns for a one-, two- or three-argument node is
    not negative; for a three-argument node with known operand values whose
    direction and step disagree ([low < high] with [step < 0], or
    [low >= high] with [step > 0]) the length returned is 0; and the
    assertion [not estimate < 0] of the three-argument node never fails. *)
Theorem iteration_length_nonneg constraint_collection :
  (forall (self : Range1.t) (n : Z),
      Range1.getIterationLength self constraint_collection = Returns (Some n) ->
      0 <= n) /\
  (forall (self : Range2.t) (n : Z),
      Range2.getIterationLength self constraint_collection = Returns (Some n) ->
      0 <= n) /\
  (forall (self : Range3.t) (n : Z),
      Range3.getIterationLength self constraint_collection = Returns (Some n) ->
      0 <= n) /\
  (forall (self : Range3.t) (low high step : Z),
      getIntegerValue (Range3.getLow self) constraint_collection = Some low ->
      getIntegerValue (Range3.getHigh self) constraint_collection = Some high ->
      getIntegerValue (Range3.getStep self) constraint_collection = Some step ->
      (low < high /\ step < 0) \/ (high <= low /\ 0 < step) ->
      Range3.getIterationLength self constraint_collection = Returns (Some 0)) /\
  (forall (self : Range3.t),
      Range3.getIterationLength self constraint_collection <> Raises AssertionError).
Proof.
  repeat split.
  - intros self n. unfold Range1.getIterationLength.
    destruct (getIntegerValue (Range1.getLow self) constraint_collection) as [low | ];
      intros Hn; inversion Hn. lia.
  - intros self n. unfold Range2.getIterationLength.
    destruct (getIntegerValue (Range2.getLow self) constraint_collection) as [low | ];
      [ | discriminate].
    destruct (getIntegerValue (Range2.getHigh self) constraint_collection) as [high | ];
      intros Hn; inversion Hn. lia.
  - intros self n. unfold Range3.getIterationLength.
    destruct (getIntegerValue (Range3.getLow self) constraint_collection) as [low | ];
      [ | discriminate].
    destruct (getIntegerValue (Range3.getHigh self) constraint_collection) as [high | ];
      [ | discriminate].
    destruct (getIntegerValue (Range3.getStep self) constraint_collection) as [step | ];
      [ | discriminate].
    apply length_of_nonneg.
  - intros self low high step Hlow Hhigh Hstep Hdir.
    rewrite (range3_length self constraint_collection low high step) by assumption.
    apply length_of_mismatch. exact Hdir.
  - intros self. unfold Range3.getIterationLength.
    destruct (getIntegerValue (Range3.getLow self) constraint_collection) as [low | ];
      [ | discriminate].
    destruct (getIntegerValue (Range3.getHigh self) constraint_collection) as [high | ];
      [ | discriminate].
    destruct (getIntegerValue (Range3.getStep self) constraint_collection) as [step | ];
      [ | discriminate].
    apply length_of_never_asserts.
Qed.

(** *** Side effects *)

Lemma mayHaveSideEffects_false_iff (visitable_nodes : list Expr) constraint_collection :
  RangeBase.mayHaveSideEffects visitable_nodes constraint_collection = false <->
  Forall (effect_free_known_integer constraint_collection) visitable_nodes.
Proof.
  induction visitable_nodes as [ | child rest IH]; simpl.
  - split; [intros _; constructor | reflexivity].
  - destruct (childMayHaveSideEffects child constraint_collection) eqn:Heffects.
    + split; [discriminate | ].
      intros Hall. inversion Hall as [ | ? ? [Hfree _] _]. congruence.
    + destruct (getIntegerValue child constraint_collection) as [value | ] eqn:Hvalue;
        simpl.
      * rewrite IH. split.
        -- intros Hrest. constructor; [ | exact Hrest].
           split; [exact Heffects | congruence].
        -- intros Hall. inversion Hall. assumption.
      * split; [discriminate | ].
        intros Hall. inversion Hall as [ | ? ? [_ Hknown] _]. congruence.
Qed.

Lemma mayHaveSideEffects_true_iff (visitable_nodes : list Expr) constraint_collection :
  RangeBase.mayHaveSideEffects visitable_nodes constraint_collection = true <->
  Exists (fun child =>
            childMayHaveSideEffects child constraint_collection = true \/
            getIntegerValue child constraint_collection = None) visitable_nodes.
Proof.
  induction visitable_nodes as [ | child rest IH]; simpl.
  - split; [discriminate | intros Hex; inversion Hex].
  - destruct (childMayHaveSideEffects child constraint_collection) eqn:Heffects.
    + split; [ | reflexivity]. intros _. left. left. exact Heffects.
    + destruct (getIntegerValue child constraint_collection) as [value | ] eqn:Hvalue;
        simpl.
      * rewrite IH. split.
        -- intros Hrest. right. exact Hrest.
        -- intros Hex. inversion Hex as [? ? [Hc | Hc] | ]; subst;
             [congruence | congruence | assumption].
      * split; [ | reflexivity]. intros _. left. right. exact Hvalue.
Qed.

(** C7.  Under every constraint collection, [mayHaveSideEffects] of a one-,
    two- or three-argument node returns [False] exactly when each of its
    operands is free of side effects and has a known integer value, and
    [True] exactly when some operand may have side effects or has no known
    integer value; for the node without arguments it returns [False]. *)
Theorem mayHaveSideEffects_classified constraint_collection :
  (forall self : Range0.t,
      Range0.mayHaveSideEffects self constraint_collection = false) /\
  (forall self : Range1.t,
      (Range1.mayHaveSideEffects self constraint_collection = false <->
       effect_free_known_integer constraint_collection (Range1.getLow self)) /\
      (Range1.mayHaveSideEffects self constraint_collection = true <->
       ~ effect_free_known_integer constraint_collection (Range1.getLow self))) /\
  (forall self : Range2.t,
      (Range2.mayHaveSideEffects self constraint_collection = false <->
       effect_free_known_integer constraint_collection (Range2.getLow self) /\
       effect_free_known_integer constraint_collection (Range2.getHigh self)) /\
      (Range2.mayHaveSideEffects self constraint_collection = true <->
       ~ (effect_free_known_integer constraint_collection (Range2.getLow self) /\
          effect_free_known_integer constraint_collection (Range2.getHigh self)))) /\
  (forall self : Range3.t,
      (Range3.mayHaveSideEffects self constraint_collection = false <->
       effect_free_known_integer constraint_collection (Range3.getLow self) /\
       effect_free_known_integer constraint_collection (Range3.getHigh self) /\
       effect_free_known_integer constraint_collection (Range3.getStep self)) /\
      (Range3.mayHaveSideEffects self constraint_collection = true <->
       ~ (effect_free_known_integer constraint_collection (Range3.getLow self) /\
          effect_free_known_integer constraint_collection (Range3.getHigh self) /\
          effect_free_known_integer constraint_collection (Range3.getStep self)))).
Proof.
  assert (Hbool : forall (b : bool) (P : Prop), (b = false <-> P) -> (b = true <-> ~ P)).
  { intros b P [Hto Hfrom]. destruct b; split; intros Hb.
    - intros HP. apply Hfrom in HP. discriminate HP.
    - reflexivity.
    - discriminate Hb.
    - exfalso. apply Hb. apply Hto. reflexivity. }
  split; [reflexivity | ].
  split; [ | split]; intros self.
  - assert (Hfalse : Range1.mayHaveSideEffects self constraint_collection = false <->
                     effect_free_known_integer constraint_collection (Range1.getLow self)).
    { unfold Range1.mayHaveSideEffects, Range1.getVisitableNodes, Range1.getLow.
      rewrite mayHaveSideEffects_false_iff. split.
      - intros Hall. inversion Hall. assumption.
      - intros Hlow. apply Forall_cons; [exact Hlow | apply Forall_nil]. }
    split; [exact Hfalse | exact (Hbool _ _ Hfalse)].
  - assert (Hfalse : Range2.mayHaveSideEffects self constraint_collection = false <->
                     effect_free_known_integer constraint_collection (Range2.getLow self) /\
                     effect_free_known_integer constraint_collection (Range2.getHigh self)).
    { unfold Range2.mayHaveSideEffects, Range2.getVisitableNodes,
        Range2.getLow, Range2.getHigh.
      rewrite mayHaveSideEffects_false_iff. split.
      - intros Hall. inversion Hall as [ | ? ? Hlow Hrest]. inversion Hrest.
        split; assumption.
      - intros [Hlow Hhigh].
        repeat (apply Forall_cons; [assumption | ]). apply Forall_nil. }
    split; [exact Hfalse | exact (Hbool _ _ Hfalse)].
  - assert (Hfalse : Range3.mayHaveSideEffects self constraint_collection = false <->
                     effect_free_known_integer constraint_collection (Range3.getLow self) /\
                     effect_free_known_integer constraint_collection (Range3.getHigh self) /\
                     effect_free_known_integer constraint_collection (Range3.getStep self)).
    { unfold Range3.mayHaveSideEffects, Range3.getVisitableNodes,
        Range3.getLow, Range3.getHigh, Range3.getStep.
      rewrite mayHaveSideEffects_false_iff. split.
      - intros Hall. inversion Hall as [ | ? ? Hlow Hrest].
        inversion Hrest as [ | ? ? Hhigh Hrest']. inversion Hrest'.
        split; [assumption | split; assumption].
      - intros [Hlow [Hhigh Hstep]].
        repeat (apply Forall_cons; [assumption | ]). apply Forall_nil. }
    split; [exact Hfalse | exact (Hbool _ _ Hfalse)].
Qed.

(** *** Folding *)

(** C8.  Under every constraint collection, for a one-, two- or
    three-argument node, when folding is switched off ([python_version] at
    least 300) or the operands are not compile-time computable, [computeNode]
    returns the node itself with neither change tags nor description, and
    [computeNode] of the node it returned does so again. *)
Theorem computeNode_unfoldable_unchanged constraint_collection :
  (forall self : Range1.t,
      300 <= python_version \/
      isCompileTimeComputable [Range1.getLow self] = false ->
      Range1.computeNode self constraint_collection = (inl self, None, None) /\
      forall node,
        fst (fst (Range1.computeNode self constraint_collection)) = inl node ->
        Range1.computeNode node constraint_collection = (inl node, None, None)) /\
  (forall self : Range2.t,
      300 <= python_version \/
      isCompileTimeComputable [Range2.getLow self; Range2.getHigh self] = false ->
      Range2.computeNode self constraint_collection = (inl self, None, None) /\
      forall node,
        fst (fst (Range2.computeNode self constraint_collection)) = inl node ->
        Range2.computeNode node constraint_collection = (inl node, None, None)) /\
  (forall self : Range3.t,
      300 <= python_version \/
      isCompileTimeComputable
        [Range3.getLow self; Range3.getHigh self; Range3.getStep self] = false ->
      Range3.computeNode self constraint_collection = (inl self, None, None) /\
      forall node,
        fst (fst (Range3.computeNode self constraint_collection)) = inl node ->
        Range3.computeNode node constraint_collection = (inl node, None, None)).
Proof.
  split; [ | split]; intros self Hunfoldable.
  - assert (Hsame : Range1.computeNode self constraint_collection
                    = (inl self, None, None)).
    { unfold Range1.computeNode.
      destruct (300 <=? python_version) eqn:Hversion; [reflexivity | ].
      destruct Hunfoldable as [Hoff | Hnot].
      - apply Z.leb_gt in Hversion. lia.
      - rewrite Hnot. reflexivity. }
    split; [exact Hsame | ].
    intros node Hnode. rewrite Hsame in Hnode. simpl in Hnode.
    inversion Hnode. subst node. exact Hsame.
  - assert (Hsame : Range2.computeNode self constraint_collection
                    = (inl self, None, None)).
    { unfold Range2.computeNode, Range2.computeBuiltinSpec.
      destruct (300 <=? python_version) eqn:Hversion; [reflexivity | ].
      destruct Hunfoldable as [Hoff | Hnot].
      - apply Z.leb_gt in Hversion. lia.
      - rewrite Hnot. reflexivity. }
    split; [exact Hsame | ].
    intros node Hnode. rewrite Hsame in Hnode. simpl in Hnode.
    inversion Hnode. subst node. exact Hsame.
  - assert (Hsame : Range3.computeNode self constraint_collection
                    = (inl self, None, None)).
    { unfold Range3.computeNode, Range3.computeBuiltinSpec.
      destruct (300 <=? python_version) eqn:Hversion; [reflexivity | ].
      destruct Hunfoldable as [Hoff | Hnot].
      - apply Z.leb_gt in Hversion. lia.
      - rewrite Hnot. reflexivity. }
    split; [exact Hsame | ].
    intros node Hnode. rewrite Hsame in Hnode. simpl in Hnode.
    inversion Hnode. subst node. exact Hsame.
Qed.

(** *** Predictability *)

Lemma is_not_None_true {A : Type} (x : option A) :
  is_not_None x = true <-> exists a, x = Some a.
Proof.
  destruct x as [a | ]; simpl; split.
  - intros _. exists a. reflexivity.
  - reflexivity.
  - discriminate.
  - intros [a Ha]. discriminate Ha.
Qed.

Lemma predicts_iff_length_known (length : PyResult (option Z)) :
  (x <- length ;; Returns (is_not_None x)) = Returns true <->
  exists n, length = Returns (Some n).
Proof.
  rewrite bind_Returns. split.
  - intros [x [Hlength Hx]]. inversion Hx as [Hknown].
    apply is_not_None_true in Hknown. destruct Hknown as [n Hn].
    exists n. subst x. exact Hlength.
  - intros [n Hlength]. exists (Some n). split; [exact Hlength | reflexivity].
Qed.

(** C9.  Under every constraint collection and for each of the one-, two-
    and three-argument nodes, [canPredictIterationValues] returns [True] if
    and only if [getIterationLength] returns a value other than [None]. *)
Theorem canPredictIterationValues_iff_length_known constraint_collection :
  (forall self : Range1.t,
      Range1.canPredictIterationValues self constraint_collection = Returns true <->
      exists n, Range1.getIterationLength self constraint_collection = Returns (Some n)) /\
  (forall self : Range2.t,
      Range2.canPredictIterationValues self constraint_collection = Returns true <->
      exists n, Range2.getIterationLength self constraint_collection = Returns (Some n)) /\
  (forall self : Range3.t,
      Range3.canPredictIterationValues self constraint_collection = Returns true <->
      exists n, Range3.getIterationLength self constraint_collection = Returns (Some n)).
Proof.
  split; [ | split]; intros self; apply predicts_iff_length_known.
Qed.

(** *** Iterability *)

(** C10.  For each of the one-, two- and three-argument nodes,
    [isKnownToBeIterable] with the count [None] returns [True]; it takes no
    constraint collection and asks no operand for its integer value, so this
    holds whatever the operands are. *)
Theorem isKnownToBeIterable_without_count :
  (forall self : Range1.t, Range1.isKnownToBeIterable self None = Returns true) /\
  (forall self : Range2.t, Range2.isKnownToBeIterable self None = Returns true) /\
  (forall self : Range3.t, Range3.isKnownToBeIterable self None = Returns true).
Proof.
  repeat split.
Qed.

End Properties.

(** ** The nodes in the small compiler *)

Example range1_of_5 :
  Range1.getIterationLength (range1 (const 5)) tt = Returns (Some 5) /\
  map (fun index => Range1.getIterationValue (range1 (const 5)) index tt)
      [0; 1; 2; 3; 4; 5; 6]
  = [Returns (Some (const 0)); Returns (Some (const 1)); Returns (Some (const 2));
     Returns (Some (const 3)); Returns (Some (const 4)); Returns (Some (const 5));
     Returns None].
Proof.
  split; reflexivity.
Qed.

Example range2_of_3_10 :
  Range2.getIterationLength (range2 (const 3) (const 10)) tt = Returns (Some 7) /\
  map (fun index => Range2.getIterationValue (range2 (const 3) (const 10)) index tt)
      [0; 6; 7]
  = [Returns (Some (const 3)); Returns (Some (const 9)); Returns None].
Proof.
  split; reflexivity.
Qed.

Example range3_of_0_10_3 :
  Range3.getIterationLength (range3 (const 0) (const 10) (const 3)) tt = Returns (Some 4) /\
  map (fun index => Range3.getIterationValue (range3 (const 0) (const 10) (const 3)) index tt)
      [0; 1; 2; 3; 4]
  = [Returns (Some (const 0)); Returns (Some (const 3)); Returns (Some (const 6));
     Returns (Some (const 9)); Returns None].
Proof.
  split; vm_compute; reflexivity.
Qed.

Example range3_of_0_2_53_plus_1 :
  Range3.getIterationLength (range3 (const 0) (const (2 ^ 53 + 1)) (const 1)) tt
  = Returns (Some (2 ^ 53)).
Proof.
  vm_compute. reflexivity.
Qed.

Example range2_of_0_2_53_plus_1 :
  Range2.getIterationLength (range2 (const 0) (const (2 ^ 53 + 1))) tt
  = Returns (Some (2 ^ 53 + 1)).
Proof.
  vm_compute. reflexivity.
Qed.

Example range3_beyond_the_largest_double :
  Range3.getIterationLength (range3 (const 0) (const (2 ^ 1024)) (const 1)) tt
  = Raises OverflowError.
Proof.
  vm_compute. reflexivity.
Qed.

Example range2_with_variable_bound :
  Range2.getIterationLength (range2 (const 3) (var "n")) tt = Returns None /\
  Range2.computeNode (range2 (const 3) (var "n")) tt
  = (inl (range2 (const 3) (var "n")), None, None).
Proof.
  split; reflexivity.
Qed.

Lemma range1_value_at_length_witness :
  Range1.getIterationLength (range1 (const 5)) tt = Returns (Some 5) /\
  Range1.getIterationValue (range1 (const 5)) 5 tt = Returns (Some (const 5)).
Proof.
  exact (range1_value_at_length (range1 (const 5)) tt 5 eq_refl).
Defined.

Lemma range3_10_0_minus2_witness :
  Range3.getIterationLength (range3 (const 10) (const 0) (const (-2))) tt
  = Returns (Some 5) /\
  forall index, 0 <= index <= 4 ->
    Range3.getIterationValue (range3 (const 10) (const 0) (const (-2))) index tt
    = Returns None.
Proof.
  exact (range3_10_0_minus2 (range3 (const 10) (const 0) (const (-2))) tt
           eq_refl eq_refl eq_refl).
Defined.

Lemma range3_zero_step_value_witness :
  Range3.getIterationLength (range3 (const 0) (const 10) (const 0)) tt = Returns None /\
  Range3.getIterationValue (range3 (const 0) (const 10) (const 0)) 4 tt
  = Returns (Some (const 0)).
Proof.
  exact (range3_zero_step_value (range3 (const 0) (const 10) (const 0)) tt 0 10 4
           eq_refl eq_refl eq_refl eq_refl).
Defined.

Lemma range3_value_unknown_step_raises_witness :
  Range3.getIterationValue (range3 (const 0) (const 10) (var "step")) 0 tt
  = Raises TypeError.
Proof.
  exact (range3_value_unknown_step_raises
           (range3 (const 0) (const 10) (var "step")) tt 0 10 0
           eq_refl eq_refl eq_refl).
Defined.

Lemma range3_length_rounds_large_operands_witness :
  Range3.getIterationLength (range3 (const 0) (const (2 ^ 60 + 1)) (const (2 ^ 60))) tt
  = Returns (Some 1) /\
  exact_ceiling (2 ^ 60 + 1 - 0) (2 ^ 60) = 2.
Proof.
  exact (range3_length_rounds_large_operands
           (range3 (const 0) (const (2 ^ 60 + 1)) (const (2 ^ 60))) tt
           eq_refl eq_refl eq_refl).
Defined.

Lemma range3_length_exact_up_to_2_53_witness :
  Range3.getIterationLength (range3 (const 10) (const 0) (const (-3))) tt
  = Returns (Some (exact_ceiling (0 - 10) (-3))).
Proof.
  apply (range3_length_exact_up_to_2_53
           (range3 (const 10) (const 0) (const (-3))) tt 10 0 (-3));
    try reflexivity.
  - vm_compute. discriminate.
  - vm_compute. split; [reflexivity | discriminate].
  - right. split; [discriminate | reflexivity].
Defined.

Lemma range2_length_and_values_witness :
  Range2.getIterationLength (range2 (const 3) (const 10)) tt = Returns (Some 7) /\
  (forall index, 0 <= index < 7 ->
     Range2.getIterationValue (range2 (const 3) (const 10)) index tt
     = Returns (Some (const (3 + index)))) /\
  (forall index, 7 <= index ->
     Range2.getIterationValue (range2 (const 3) (const 10)) index tt = Returns None).
Proof.
  exact (range2_length_and_values (range2 (const 3) (const 10)) tt 3 10
           eq_refl eq_refl).
Defined.

Lemma iteration_length_nonneg_witness :
  Range3.getIterationLength (range3 (const 0) (const 10) (const (-1))) tt
  = Returns (Some 0).
Proof.
  exact (proj1 (proj2 (proj2 (proj2 (iteration_length_nonneg
                                       (nodes := simple_nodes) tt))))
           (range3 (const 0) (const 10) (const (-1))) 0 10 (-1)
           eq_refl eq_refl eq_refl (or_introl (conj eq_refl eq_refl))).
Defined.

Lemma mayHaveSideEffects_classified_witness :
  Range3.mayHaveSideEffects (range3 (const 0) (const 10) (const 2)) tt = false.
Proof.
  apply (proj1 (proj2 (proj2 (proj2 (mayHaveSideEffects_classified
                                        (nodes := simple_nodes) tt)))
                  (range3 (const 0) (const 10) (const 2)))).
  repeat split; discriminate.
Defined.

Lemma computeNode_unfoldable_unchanged_witness :
  Range2.computeNode (range2 (const 3) (var "n")) tt
  = (inl (range2 (const 3) (var "n")), None, None) /\
  forall node,
    fst (fst (Range2.computeNode (range2 (const 3) (var "n")) tt)) = inl node ->
    Range2.computeNode node tt = (inl node, None, None).
Proof.
  apply (proj1 (proj2 (computeNode_unfoldable_unchanged
                         (nodes := simple_nodes) tt))
           (range2 (const 3) (var "n"))).
  right. reflexivity.
Defined.

Lemma canPredictIterationValues_iff_length_known_witness :
  Range3.canPredictIterationValues (range3 (const 10) (const 0) (const (-2))) tt
  = Returns true.
Proof.
  apply (proj2 (proj2 (canPredictIterationValues_iff_length_known
                         (nodes := simple_nodes) tt))
           (range3 (const 10) (const 0) (const (-2)))).
  exists 5. vm_compute. reflexivity.
Defined.

(** ** Floats that conversions and divisions of integers never produce *)

Lemma shr_1_half (mrs : shr_record) :
  0 <= shr_m mrs -> shr_m (shr_1 mrs) = shr_m mrs / 2.
Proof.
  destruct mrs as [m r s]. cbn [shr_m]. intros Hm.
  destruct m as [ | p | p]; [reflexivity | | lia].
  destruct p as [p | p | ]; cbn [shr_1 shr_m].
  - rewrite Pos2Z.inj_xI. apply Z.div_unique with (r := 1); lia.
  - rewrite Pos2Z.inj_xO. apply Z.div_unique with (r := 0); lia.
  - reflexivity.
Qed.

Lemma iter_shr_1_power (k : positive) (mrs : shr_record) :
  0 <= shr_m mrs ->
  shr_m (iter_pos shr_1 k mrs) = shr_m mrs / 2 ^ Z.pos k.
Proof.
  revert mrs. induction k as [k IH | k IH | ]; intros mrs Hm; cbn [iter_pos].
  - assert (Hhalf : 0 <= shr_m (shr_1 mrs)).
    { rewrite shr_1_half by exact Hm. apply Z.div_pos; lia. }
    assert (Hinner : 0 <= shr_m (iter_pos shr_1 k (shr_1 mrs))).
    { rewrite IH by exact Hhalf. apply Z.div_pos; [exact Hhalf | ].
      apply Z.pow_pos_nonneg; lia. }
    rewrite IH by exact Hinner. rewrite IH by exact Hhalf.
    rewrite shr_1_half by exact Hm.
    assert (Hpow : 0 < 2 ^ Z.pos k) by (apply Z.pow_pos_nonneg; lia).
    rewrite !Z.div_div by lia.
    f_equal. rewrite Pos2Z.inj_xI.
    replace (2 * Z.pos k + 1) with (Z.succ (Z.pos k + Z.pos k)) by lia.
    rewrite Z.pow_succ_r, Z.pow_add_r by lia. ring.
  - assert (Hinner : 0 <= shr_m (iter_pos shr_1 k mrs)).
    { rewrite IH by exact Hm. apply Z.div_pos; [exact Hm | ].
      apply Z.pow_pos_nonneg; lia. }
    rewrite IH by exact Hinner. rewrite IH by exact Hm.
    assert (Hpow : 0 < 2 ^ Z.pos k) by (apply Z.pow_pos_nonneg; lia).
    rewrite Z.div_div by lia.
    f_equal.
    replace (Z.pos k~0) with (Z.pos k + Z.pos k) by lia.
    rewrite Z.pow_add_r by lia. ring.
  - rewrite shr_1_half by exact Hm. reflexivity.
Qed.

Lemma shr_mantissa (mrs : shr_record) (e n : Z) :
  0 <= shr_m mrs ->
  shr_m (fst (shr mrs e n)) = shr_m mrs / 2 ^ Z.max 0 n.
Proof.
  intros Hm. unfold shr. destruct n as [ | k | k]; cbn [fst].
  - simpl. rewrite Z.div_1_r. reflexivity.
  - rewrite iter_shr_1_power by exact Hm. reflexivity.
  - simpl. rewrite Z.div_1_r. reflexivity.
Qed.

Lemma shr_fexp_mantissa_nonneg (m e : Z) (l : location) :
  0 <= m -> 0 <= shr_m (fst (shr_fexp PyFloat.prec PyFloat.emax m e l)).
Proof.
  intros Hm. unfold shr_fexp.
  rewrite shr_mantissa by (rewrite shr_m_of_loc; exact Hm).
  rewrite shr_m_of_loc. apply Z.div_pos; [exact Hm | ].
  apply Z.pow_pos_nonneg; lia.
Qed.

Lemma round_nearest_even_bounds (m : Z) (l : location) :
  m <= round_nearest_even m l <= m + 1.
Proof.
  unfold round_nearest_even.
  destruct l as [ | [ | | ]]; try lia. destruct (Z.even m); lia.
Qed.

Lemma binary_round_aux_not_nan (s : bool) (m e : Z) (l : location) :
  0 <= m -> binary_round_aux PyFloat.prec PyFloat.emax s m e l <> S754_nan.
Proof.
  intros Hm. unfold binary_round_aux.
  pose proof (shr_fexp_mantissa_nonneg m e l Hm) as Hfirst.
  destruct (shr_fexp PyFloat.prec PyFloat.emax m e l) as [mrs' e']. cbn [fst] in Hfirst.
  pose proof (round_nearest_even_bounds (shr_m mrs') (loc_of_shr_record mrs')) as Hround.
  pose proof (shr_fexp_mantissa_nonneg
                (round_nearest_even (shr_m mrs') (loc_of_shr_record mrs')) e' loc_Exact
                ltac:(lia)) as Hsecond.
  destruct (shr_fexp PyFloat.prec PyFloat.emax _ e' loc_Exact) as [mrs'' e''].
  cbn [fst] in Hsecond.
  destruct (shr_m mrs'') as [ | p | p]; [discriminate | | lia].
  destruct (e'' <=? PyFloat.emax - PyFloat.prec); discriminate.
Qed.

Lemma finish_finite_or_infinite (s : bool) (q1 e1 : Z) :
  2 ^ 52 <= q1 <= 2 ^ 53 -> -1074 <= e1 ->
  (exists (m : positive) (e : Z), finish s q1 e1 = S754_finite s m e) \/
  finish s q1 e1 = S754_infinity s.
Proof.
  intros Hq He. unfold finish.
  destruct (Z_lt_le_dec q1 (2 ^ 53)) as [Hlt | Hge].
  - rewrite shr_fexp_53 by lia. rewrite shr_m_of_loc.
    destruct q1 as [ | m | m]; try lia.
    destruct (e1 <=? PyFloat.emax - PyFloat.prec); [left | right; reflexivity].
    exists m, e1. reflexivity.
  - assert (q1 = 2 ^ 53) by lia. subst q1.
    rewrite shr_fexp_54 by lia. cbn [shr_m shr_1 shr_record_of_loc].
    change (2 ^ 53) with (Z.pos (2 ^ 52)~0). cbn iota.
    destruct (e1 + 1 <=? PyFloat.emax - PyFloat.prec); [left | right; reflexivity].
    exists (2 ^ 52)%positive, (e1 + 1). reflexivity.
Qed.

(** The double of an integer other than 0 is a finite number other than 0,
    unless the conversion overflows. *)
Lemma binary_round_finite_or_infinite (s : bool) (p : positive) :
  (exists (m : positive) (e : Z),
      binary_round PyFloat.prec PyFloat.emax s p 0 = S754_finite s m e) \/
  binary_round PyFloat.prec PyFloat.emax s p 0 = S754_infinity s.
Proof.
  destruct (Z_le_gt_dec (Z.pos p) (2 ^ 53)) as [Hsmall | Hlarge].
  - left. destruct (binary_round_exact s p Hsmall) as [m [e [Hround _]]].
    exists m, e. exact Hround.
  - pose proof (digits2_pos_bounds p) as [Hlow Hhigh].
    set (d := Z.pos (digits2_pos p)) in *.
    assert (Hd : 54 <= d).
    { destruct (Z_lt_le_dec d 54) as [Hlt | Hle]; [ | exact Hle].
      exfalso.
      assert (2 ^ d <= 2 ^ 53) by (apply Z.pow_le_mono_r; lia).
      lia. }
    unfold binary_round. fold d.
    assert (Hfexp : fexp PyFloat.prec PyFloat.emax (d + 0) = d - 53).
    { unfold fexp, emin, PyFloat.prec, PyFloat.emax. lia. }
    rewrite Hfexp. unfold shl_align.
    destruct (d - 53 - 0) as [ | k | k] eqn:Hshift; [lia | | lia].
    rewrite binary_round_aux_finish.
    unfold shr_fexp. cbn [Zdigits2]. fold d. rewrite Hfexp.
    replace (d - 53 - 0) with (Z.pos k) by lia.
    cbn [shr].
    set (mrs' := iter_pos shr_1 k (shr_record_of_loc (Z.pos p) loc_Exact)).
    assert (Hm1 : shr_m mrs' = Z.pos p / 2 ^ (d - 53)).
    { unfold mrs'. rewrite iter_shr_1_power by (cbn; lia).
      cbn [shr_m shr_record_of_loc]. f_equal. f_equal. lia. }
    assert (Hrange : 2 ^ 52 <= shr_m mrs' < 2 ^ 53).
    { rewrite Hm1.
      assert (Hpow : 0 < 2 ^ (d - 53)) by (apply Z.pow_pos_nonneg; lia).
      assert (Hsplit52 : 2 ^ (d - 1) = 2 ^ 52 * 2 ^ (d - 53)).
      { rewrite <- Z.pow_add_r by lia. f_equal. lia. }
      assert (Hsplit53 : 2 ^ d = 2 ^ 53 * 2 ^ (d - 53)).
      { rewrite <- Z.pow_add_r by lia. f_equal. lia. }
      split.
      - apply Z.div_le_lower_bound; lia.
      - apply Z.div_lt_upper_bound; lia. }
    pose proof (round_nearest_even_bounds (shr_m mrs') (loc_of_shr_record mrs')) as Hround.
    apply finish_finite_or_infinite; lia.
Qed.

Lemma float_of_nonzero (n : Z) (x : spec_float) :
  n <> 0 -> PyFloat.float n = Returns x ->
  exists (m : positive) (e : Z), x = S754_finite (n <? 0) m e.
Proof.
  intros Hn. unfold PyFloat.float, binary_normalize.
  destruct n as [ | p | p]; [contradiction Hn; reflexivity | | ].
  - destruct (binary_round_finite_or_infinite false p) as [[m [e Hround]] | Hround];
      rewrite Hround; intros Hx; inversion Hx. exists m, e. reflexivity.
  - destruct (binary_round_finite_or_infinite true p) as [[m [e Hround]] | Hround];
      rewrite Hround; intros Hx; inversion Hx. exists m, e. reflexivity.
Qed.

Lemma float_raises (n : Z) (e : PyException) :
  PyFloat.float n = Raises e -> e = OverflowError.
Proof.
  unfold PyFloat.float.
  destruct (binary_normalize _ _ _ _ _); intros Hraise; inversion Hraise; reflexivity.
Qed.

Lemma SFdiv_finite_not_nan (sx sy : bool) (mx my : positive) (ex ey : Z) :
  SFdiv PyFloat.prec PyFloat.emax (S754_finite sx mx ex) (S754_finite sy my ey)
  <> S754_nan.
Proof.
  unfold SFdiv, SFdiv_core_binary.
  set (e' := Z.min _ _). set (shift := ex - ey - e').
  set (m' := match shift with
             | Z0 => Z.pos mx
             | Z.pos _ => Z.shiftl (Z.pos mx) shift
             | Z.neg _ => 0
             end).
  assert (Hm' : 0 <= m').
  { unfold m'. destruct shift; try lia. apply Z.shiftl_nonneg. lia. }
  pose proof (Z.div_pos m' (Z.pos my) Hm' ltac:(lia)) as Hq.
  unfold Z.div in Hq.
  destruct (Z.div_eucl m' (Z.pos my)) as [q r].
  apply binary_round_aux_not_nan. exact Hq.
Qed.

Lemma ceil_quotient_raises (low high step : Z) (e : PyException) :
  step <> 0 ->
  Range3.ceil_quotient low high step = Raises e -> e = OverflowError.
Proof.
  intros Hstep. unfold Range3.ceil_quotient, PyFloat.truediv.
  destruct (PyFloat.float (high - low)) as [x | ex] eqn:Hx; cbn [bind];
    [ | intros Hraise; inversion Hraise; subst; exact (float_raises _ _ Hx)].
  destruct (PyFloat.float step) as [y | ey] eqn:Hy; cbn [bind];
    [ | intros Hraise; inversion Hraise; subst; exact (float_raises _ _ Hy)].
  destruct (float_of_nonzero step y Hstep Hy) as [my [ey Hyfinite]]. subst y.
  cbn [bind].
  destruct (Z.eq_dec (high - low) 0) as [Hzero | Hnonzero].
  - rewrite Hzero in Hx. inversion Hx. discriminate.
  - destruct (float_of_nonzero (high - low) x Hnonzero Hx) as [mx [ex Hxfinite]].
    subst x.
    pose proof (SFdiv_finite_not_nan (high - low <? 0) (step <? 0) mx my ex ey) as Hnan.
    destruct (SFdiv _ _ _ _); cbn [math.ceil]; intros Hraise;
      try discriminate Hraise; inversion Hraise; try reflexivity.
    contradiction Hnan. reflexivity.
Qed.

Lemma length_of_raises (low high step : Z) (e : PyException) :
  Range3.length_of low high step = Raises e -> e = OverflowError.
Proof.
  intros Hraise. pose proof Hraise as Hwhole.
  unfold Range3.length_of in Hraise.
  destruct (step =? 0) eqn:Hstep; [discriminate Hraise | ].
  apply Z.eqb_neq in Hstep.
  apply bind_Raises in Hraise.
  destruct Hraise as [Hraise | [estimate [_ Hraise]]].
  - destruct (low <? high), (step <? 0), (0 <? step);
      try discriminate Hraise;
      exact (ceil_quotient_raises low high step e Hstep Hraise).
  - cbn zeta in Hraise.
    destruct (round estimate <? 0); [ | discriminate Hraise].
    inversion Hraise. subst e.
    contradiction (length_of_never_asserts low high step Hwhole).
Qed.

Lemma length_of_returns_up_to_2_53 (low high step : Z) :
  Z.abs (high - low) <= 2 ^ 53 -> Z.abs step <= 2 ^ 53 ->
  exists length, Range3.length_of low high step = Returns length.
Proof.
  intros Hdiff Hmagnitude.
  destruct (Z.eq_dec step 0) as [Hzero | Hstep].
  - subst step. exists None. reflexivity.
  - destruct (Z_lt_le_dec low high) as [Hlt | Hge];
      destruct (Z_lt_le_dec 0 step) as [Hpos | Hnonpos].
    + eexists. apply length_of_exact; [assumption | lia | left; lia].
    + eexists. apply length_of_mismatch. left. lia.
    + eexists. apply length_of_mismatch. right. lia.
    + eexists. apply length_of_exact; [assumption | lia | right; lia].
Qed.

(** ** Further properties of the nodes over any compiler *)

Section FurtherProperties.
Context {nodes : NodeBases} {helpers : Helpers}.

Implicit Types (constraint_collection : ConstraintCollection).

(** *** Truth values *)

Lemma positive_max (n : Z) : (0 <? Z.max 0 n) = (0 <? n).
Proof.
  destruct (Z.ltb_spec 0 n) as [Hpos | Hneg].
  - apply Z.ltb_lt. lia.
  - apply Z.ltb_ge. lia.
Qed.

(** X3.  Under every constraint collection, [getTruthValue] of a
    one-argument node returns [None] when its operand has no known integer
    value and otherwise whether [0 < low]; [getTruthValue] of a two-argument
    node returns [None] when one of its operands has no known integer value
    and otherwise whether [low < high]. *)
Theorem range1_range2_truth_value constraint_collection :
  (forall self : Range1.t,
      Range1.getTruthValue self constraint_collection
      = Returns match getIntegerValue (Range1.getLow self) constraint_collection with
                | None => None
                | Some low => Some (0 <? low)
                end) /\
  (forall self : Range2.t,
      Range2.getTruthValue self constraint_collection
      = Returns match getIntegerValue (Range2.getLow self) constraint_collection,
                      getIntegerValue (Range2.getHigh self) constraint_collection with
                | Some low, Some high => Some (low <? high)
                | _, _ => None
                end).
Proof.
  split; intros self.
  - unfold Range1.getTruthValue, RangeBase.getTruthValue, Range1.getIterationLength.
    destruct (getIntegerValue (Range1.getLow self) constraint_collection) as [low | ];
      [ | reflexivity].
    cbn [bind]. rewrite positive_max. reflexivity.
  - unfold Range2.getTruthValue, RangeBase.getTruthValue, Range2.getIterationLength.
    destruct (getIntegerValue (Range2.getLow self) constraint_collection) as [low | ];
      [ | reflexivity].
    destruct (getIntegerValue (Range2.getHigh self) constraint_collection) as [high | ];
      [ | reflexivity].
    cbn [bind]. rewrite positive_max.
    do 2 f_equal.
    destruct (Z.ltb_spec low high) as [Hlt | Hge].
    + apply Z.ltb_lt. lia.
    + apply Z.ltb_ge. lia.
Qed.

Lemma exact_ceiling_positive (a b : Z) :
  0 < a -> 0 < b -> 0 < exact_ceiling a b.
Proof.
  intros Ha Hb. pose proof (exact_ceiling_bounds a b Hb). nia.
Qed.

Lemma exact_ceiling_nonpositive (a b : Z) :
  a <= 0 -> 0 < b -> exact_ceiling a b <= 0.
Proof.
  intros Ha Hb. pose proof (exact_ceiling_bounds a b Hb). nia.
Qed.

(** X4.  For a three-argument node with known operand values whose
    difference [high - low] and whose step are at most 2^53 in magnitude and
    whose step is not 0, [getTruthValue] returns [True] exactly when the
    range has an element: when [low < high] with a positive step or
    [high < low] with a negative step. *)
Theorem range3_truth_value
    (self : Range3.t) constraint_collection (low high step : Z) :
  getIntegerValue (Range3.getLow self) constraint_collection = Some low ->
  getIntegerValue (Range3.getHigh self) constraint_collection = Some high ->
  getIntegerValue (Range3.getStep self) constraint_collection = Some step ->
  Z.abs (high - low) <= 2 ^ 53 -> 0 < Z.abs step <= 2 ^ 53 ->
  Range3.getTruthValue self constraint_collection
  = Returns (Some ((low <? high) && (0 <? step) || (high <? low) && (step <? 0))).
Proof.
  intros Hlow Hhigh Hstep Hdiff Hmagnitude.
  unfold Range3.getTruthValue, RangeBase.getTruthValue.
  rewrite (range3_length self constraint_collection low high step) by assumption.
  destruct (Z.ltb_spec low high) as [Hlt | Hge];
    destruct (Z.ltb_spec 0 step) as [Hpos | Hnonpos].
  - rewrite length_of_exact by (try assumption; left; split; assumption).
    cbn [bind].
    replace (0 <? exact_ceiling (high - low) step) with true
      by (symmetry; apply Z.ltb_lt; apply exact_ceiling_positive; lia).
    reflexivity.
  - rewrite length_of_mismatch by (left; split; lia).
    cbn [bind].
    replace (high <? low) with false by (symmetry; apply Z.ltb_ge; lia).
    reflexivity.
  - rewrite length_of_mismatch by (right; split; lia).
    cbn [bind].
    replace (step <? 0) with false by (symmetry; apply Z.ltb_ge; lia).
    rewrite andb_false_r. reflexivity.
  - rewrite length_of_exact by (try assumption; right; split; lia).
    cbn [bind].
    replace (step <? 0) with true by (symmetry; apply Z.ltb_lt; lia).
    rewrite andb_true_r. cbn [andb orb].
    do 2 f_equal.
    rewrite <- (exact_ceiling_opp (high - low) step) by lia.
    destruct (Z.ltb_spec high low) as [Hdesc | Hequal].
    + apply Z.ltb_lt. apply exact_ceiling_positive; lia.
    + apply Z.ltb_ge. apply exact_ceiling_nonpositive; lia.
Qed.

Lemma truth_known_iff_length_known (length : PyResult (option Z)) :
  (exists b : bool,
      (x <- length ;;
       match x with
       | None => Returns None
       | Some n => Returns (Some (0 <? n))
       end) = Returns (Some b)) <->
  exists n, length = Returns (Some n).
Proof.
  split.
  - intros [b Hb]. apply bind_Returns in Hb. destruct Hb as [x [Hlength Hx]].
    destruct x as [n | ]; [ | discriminate Hx]. exists n. exact Hlength.
  - intros [n Hlength]. exists (0 <? n). rewrite Hlength. reflexivity.
Qed.

(** X5.  Under every constraint collection and for each of the one-, two-
    and three-argument nodes, [getTruthValue] returns [True] or [False] if
    and only if [canPredictIterationValues] returns [True]; otherwise it
    returns [None] or raises as [getIterationLength] does. *)
Theorem truth_value_known_iff_predictable constraint_collection :
  (forall self : Range1.t,
      (exists b : bool,
          Range1.getTruthValue self constraint_collection = Returns (Some b)) <->
      Range1.canPredictIterationValues self constraint_collection = Returns true) /\
  (forall self : Range2.t,
      (exists b : bool,
          Range2.getTruthValue self constraint_collection = Returns (Some b)) <->
      Range2.canPredictIterationValues self constraint_collection = Returns true) /\
  (forall self : Range3.t,
      (exists b : bool,
          Range3.getTruthValue self constraint_collection = Returns (Some b)) <->
      Range3.canPredictIterationValues self constraint_collection = Returns true).
Proof.
  split; [ | split]; intros self.
  - unfold Range1.getTruthValue, RangeBase.getTruthValue, Range1.canPredictIterationValues.
    rewrite truth_known_iff_length_known, predicts_iff_length_known. reflexivity.
  - unfold Range2.getTruthValue, RangeBase.getTruthValue, Range2.canPredictIterationValues.
    rewrite truth_known_iff_length_known, predicts_iff_length_known. reflexivity.
  - unfold Range3.getTruthValue, RangeBase.getTruthValue, Range3.canPredictIterationValues.
    rewrite truth_known_iff_length_known, predicts_iff_length_known. reflexivity.
Qed.

(** *** Iteration values against iteration lengths *)

(** X6.  For a one-argument node whose operand has the known integer value
    [low], [getIterationValue] returns a constant node of the index at every
    index from 0 up to the length [max( 0, low )], and [None] at every index
    above the length. *)
Theorem range1_values_around_length
    (self : Range1.t) constraint_collection (low : Z) :
  getIntegerValue (Range1.getLow self) constraint_collection = Some low ->
  (forall index, 0 <= index < Z.max 0 low ->
     Range1.getIterationValue self index constraint_collection
     = Returns (Some (makeConstantReplacementNode index self))) /\
  (forall index, Z.max 0 low < index ->
     Range1.getIterationValue self index constraint_collection = Returns None).
Proof.
  intros Hlow. split; intros index Hindex.
  - apply (range1_value_within self constraint_collection low); [exact Hlow | lia].
  - apply (range1_value_beyond self constraint_collection low); assumption.
Qed.

(** X7.  For a three-argument node with known operand values, a positive
    step of at most 2^53 and a difference [high - low] of at most 2^53 in
    magnitude, the length and the values agree: [getIterationLength] returns
    [n = max( 0, ceil( (high - low) / step ) )], [getIterationValue] returns
    a constant node of [low + step * index] at every index from 0 up to [n],
    and [None] at every index from [n] on. *)
Theorem range3_ascending_length_and_values
    (self : Range3.t) constraint_collection (low high step : Z) :
  getIntegerValue (Range3.getLow self) constraint_collection = Some low ->
  getIntegerValue (Range3.getHigh self) constraint_collection = Some high ->
  getIntegerValue (Range3.getStep self) constraint_collection = Some step ->
  0 < step <= 2 ^ 53 -> Z.abs (high - low) <= 2 ^ 53 ->
  let n := Z.max 0 (exact_ceiling (high - low) step) in
  Range3.getIterationLength self constraint_collection = Returns (Some n) /\
  (forall index, 0 <= index < n ->
     Range3.getIterationValue self index constraint_collection
     = Returns (Some (makeConstantReplacementNode (low + step * index) self))) /\
  (forall index, n <= index ->
     Range3.getIterationValue self index constraint_collection = Returns None).
Proof.
  intros Hlow Hhigh Hstep Hpos Hdiff n.
  pose proof (exact_ceiling_bounds (high - low) step ltac:(lia)) as Hc.
  assert (Hvalue : forall index,
             Range3.getIterationValue self index constraint_collection
             = if high <=? low + step * index then Returns None
               else Returns (Some (makeConstantReplacementNode
                                     (low + step * index) self))).
  { intros index. apply range3_value; assumption. }
  destruct (Z_lt_le_dec low high) as [Hlt | Hge].
  - assert (Hn : n = exact_ceiling (high - low) step) by (unfold n; nia).
    split; [ | split].
    + rewrite (range3_length self constraint_collection low high step) by assumption.
      rewrite Hn. apply length_of_exact; [assumption | lia | left; lia].
    + intros index Hindex. rewrite Hvalue.
      replace (high <=? low + step * index) with false
        by (symmetry; apply Z.leb_gt; nia).
      reflexivity.
    + intros index Hindex. rewrite Hvalue.
      replace (high <=? low + step * index) with true
        by (symmetry; apply Z.leb_le; nia).
      reflexivity.
  - assert (Hn : n = 0) by (unfold n; nia).
    split; [ | split].
    + rewrite (range3_length self constraint_collection low high step) by assumption.
      rewrite Hn. apply length_of_mismatch. right. lia.
    + intros index Hindex. lia.
    + intros index Hindex. rewrite Hvalue.
      replace (high <=? low + step * index) with true
        by (symmetry; apply Z.leb_le; nia).
      reflexivity.
Qed.

Lemma exact_ceiling_by_one (a : Z) : exact_ceiling a 1 = a.
Proof.
  unfold exact_ceiling. rewrite Z.div_1_r. lia.
Qed.

(** X8.  A three-argument node whose step has the known value 1 answers as
    the two-argument node with the same known bounds: at every index both
    [getIterationValue] return [None] or both return a constant node of
    [low + index], and when [high - low] is at most 2^53 in magnitude both
    [getIterationLength] return the same length. *)
Theorem range3_unit_step_as_range2
    (self2 : Range2.t) (self3 : Range3.t) constraint_collection (low high : Z) :
  getIntegerValue (Range2.getLow self2) constraint_collection = Some low ->
  getIntegerValue (Range2.getHigh self2) constraint_collection = Some high ->
  getIntegerValue (Range3.getLow self3) constraint_collection = Some low ->
  getIntegerValue (Range3.getHigh self3) constraint_collection = Some high ->
  getIntegerValue (Range3.getStep self3) constraint_collection = Some 1 ->
  (forall index,
      (Range2.getIterationValue self2 index constraint_collection = Returns None /\
       Range3.getIterationValue self3 index constraint_collection = Returns None) \/
      (Range2.getIterationValue self2 index constraint_collection
       = Returns (Some (makeConstantReplacementNode (low + index) self2)) /\
       Range3.getIterationValue self3 index constraint_collection
       = Returns (Some (makeConstantReplacementNode (low + index) self3)))) /\
  (Z.abs (high - low) <= 2 ^ 53 ->
   Range3.getIterationLength self3 constraint_collection
   = Range2.getIterationLength self2 constraint_collection).
Proof.
  intros Hlow2 Hhigh2 Hlow3 Hhigh3 Hstep3. split.
  - intros index.
    rewrite (range3_value self3 constraint_collection low high 1 index) by assumption.
    unfold Range2.getIterationValue. rewrite Hlow2, Hhigh2. cbn zeta.
    replace (low + 1 * index) with (low + index) by lia.
    destruct (high <=? low + index); [left | right]; split; reflexivity.
  - intros Hdiff.
    rewrite (range3_length self3 constraint_collection low high 1) by assumption.
    rewrite (range2_length self2 constraint_collection low high) by assumption.
    destruct (Z_lt_le_dec low high) as [Hlt | Hge].
    + rewrite length_of_exact.
      * rewrite exact_ceiling_by_one. do 2 f_equal. lia.
      * exact Hdiff.
      * vm_compute. split; [reflexivity | discriminate].
      * left. lia.
    + rewrite length_of_mismatch by (right; lia).
      do 2 f_equal. lia.
Qed.

(** *** When the queries give up and when they raise *)

(** X9.  Under every constraint collection, [getIterationValue] of a one- or
    two-argument node returns at every index; [getIterationValue] of a
    three-argument node raises exactly when its low and high operands have
    known integer values and its step has none, the exception is
    [TypeError], and it returns at every index once
    [canPredictIterationValues] has returned [True]. *)
Theorem getIterationValue_raises_only_on_unknown_step constraint_collection :
  (forall (self : Range1.t) (index : Z),
      exists result,
        Range1.getIterationValue self index constraint_collection = Returns result) /\
  (forall (self : Range2.t) (index : Z),
      exists result,
        Range2.getIterationValue self index constraint_collection = Returns result) /\
  (forall (self : Range3.t) (index : Z) (e : PyException),
      Range3.getIterationValue self index constraint_collection = Raises e <->
      e = TypeError /\
      getIntegerValue (Range3.getLow self) constraint_collection <> None /\
      getIntegerValue (Range3.getHigh self) constraint_collection <> None /\
      getIntegerValue (Range3.getStep self) constraint_collection = None) /\
  (forall (self : Range3.t) (index : Z),
      Range3.canPredictIterationValues self constraint_collection = Returns true ->
      exists result,
        Range3.getIterationValue self index constraint_collection = Returns result).
Proof.
  split; [ | split; [ | split]].
  - intros self index.
    unfold Range1.getIterationValue, Range1.getIterationLength.
    destruct (getIntegerValue (Range1.getLow self) constraint_collection) as [low | ];
      cbn [bind]; [ | eexists; reflexivity].
    destruct (Z.max 0 low <? index); eexists; reflexivity.
  - intros self index. unfold Range2.getIterationValue.
    destruct (getIntegerValue (Range2.getLow self) constraint_collection) as [low | ];
      [ | eexists; reflexivity].
    destruct (getIntegerValue (Range2.getHigh self) constraint_collection) as [high | ];
      [ | eexists; reflexivity].
    cbn zeta. destruct (high <=? low + index); eexists; reflexivity.
  - intros self index e. unfold Range3.getIterationValue.
    destruct (getIntegerValue (Range3.getLow self) constraint_collection) as [low | ].
    + destruct (getIntegerValue (Range3.getHigh self) constraint_collection) as [high | ].
      * destruct (getIntegerValue (Range3.getStep self) constraint_collection) as [step | ].
        -- cbn zeta. split.
           ++ destruct (high <=? low + step * index); discriminate.
           ++ intros [_ [_ [_ Hstep]]]. discriminate Hstep.
        -- split.
           ++ intros Hraise. inversion Hraise.
              repeat split; try discriminate.
           ++ intros [He _]. subst e. reflexivity.
      * split; [discriminate | ]. intros [_ [_ [Hhigh _]]]. contradiction Hhigh. reflexivity.
    + split; [discriminate | ]. intros [_ [Hlow _]]. contradiction Hlow. reflexivity.
  - intros self index Hpredict.
    unfold Range3.canPredictIterationValues in Hpredict.
    apply predicts_iff_length_known in Hpredict. destruct Hpredict as [n Hn].
    unfold Range3.getIterationLength in Hn. unfold Range3.getIterationValue.
    destruct (getIntegerValue (Range3.getLow self) constraint_collection) as [low | ];
      [ | discriminate Hn].
    destruct (getIntegerValue (Range3.getHigh self) constraint_collection) as [high | ];
      [ | discriminate Hn].
    destruct (getIntegerValue (Range3.getStep self) constraint_collection) as [step | ];
      [ | discriminate Hn].
    cbn zeta. destruct (high <=? low + step * index); eexists; reflexivity.
Qed.

Lemma length_of_None (low high step : Z) :
  Range3.length_of low high step = Returns None <-> step = 0.
Proof.
  unfold Range3.length_of. split.
  - destruct (step =? 0) eqn:Hstep; [intros _; apply Z.eqb_eq; exact Hstep | ].
    intros Hnone. apply bind_Returns in Hnone. destruct Hnone as [estimate [_ Hnone]].
    cbn zeta in Hnone. destruct (round estimate <? 0); discriminate Hnone.
  - intros Hstep. subst step. reflexivity.
Qed.

(** X10.  Under every constraint collection, [getIterationLength] returns
    [None] exactly in these cases: for a one-argument node when its operand
    has no known integer value; for a two-argument node when its low or its
    high operand has none; for a three-argument node when one of its three
    operands has none or the step has the known value 0. *)
Theorem getIterationLength_None_iff constraint_collection :
  (forall self : Range1.t,
      Range1.getIterationLength self constraint_collection = Returns None <->
      getIntegerValue (Range1.getLow self) constraint_collection = None) /\
  (forall self : Range2.t,
      Range2.getIterationLength self constraint_collection = Returns None <->
      getIntegerValue (Range2.getLow self) constraint_collection = None \/
      getIntegerValue (Range2.getHigh self) constraint_collection = None) /\
  (forall self : Range3.t,
      Range3.getIterationLength self constraint_collection = Returns None <->
      getIntegerValue (Range3.getLow self) constraint_collection = None \/
      getIntegerValue (Range3.getHigh self) constraint_collection = None \/
      getIntegerValue (Range3.getStep self) constraint_collection = None \/
      getIntegerValue (Range3.getStep self) constraint_collection = Some 0).
Proof.
  split; [ | split]; intros self.
  - unfold Range1.getIterationLength.
    destruct (getIntegerValue (Range1.getLow self) constraint_collection) as [low | ];
      split; try discriminate; reflexivity.
  - unfold Range2.getIterationLength.
    destruct (getIntegerValue (Range2.getLow self) constraint_collection) as [low | ];
      [ | split; [left; reflexivity | reflexivity]].
    destruct (getIntegerValue (Range2.getHigh self) constraint_collection) as [high | ];
      [ | split; [right; reflexivity | reflexivity]].
    split; [discriminate | intros [Hnone | Hnone]; discriminate Hnone].
  - unfold Range3.getIterationLength.
    destruct (getIntegerValue (Range3.getLow self) constraint_collection) as [low | ];
      [ | split; [left; reflexivity | reflexivity]].
    destruct (getIntegerValue (Range3.getHigh self) constraint_collection) as [high | ];
      [ | split; [right; left; reflexivity | reflexivity]].
    destruct (getIntegerValue (Range3.getStep self) constraint_collection) as [step | ];
      [ | split; [right; right; left; reflexivity | reflexivity]].
    rewrite length_of_None. split.
    + intros Hstep. subst step. right. right. right. reflexivity.
    + intros [Hnone | [Hnone | [Hnone | Hzero]]]; try discriminate Hnone.
      inversion Hzero. reflexivity.
Qed.

(** X11.  Under every constraint collection, [getIterationLength] of a one-
    or two-argument node returns; [getIterationLength] of a three-argument
    node raises nothing but [OverflowError], and returns whenever its
    operands have known integer values with a difference [high - low] and a
    step of at most 2^53 in magnitude. *)
Theorem getIterationLength_raises_only_OverflowError constraint_collection :
  (forall self : Range1.t,
      exists length,
        Range1.getIterationLength self constraint_collection = Returns length) /\
  (forall self : Range2.t,
      exists length,
        Range2.getIterationLength self constraint_collection = Returns length) /\
  (forall (self : Range3.t) (e : PyException),
      Range3.getIterationLength self constraint_collection = Raises e ->
      e = OverflowError) /\
  (forall (self : Range3.t) (low high step : Z),
      getIntegerValue (Range3.getLow self) constraint_collection = Some low ->
      getIntegerValue (Range3.getHigh self) constraint_collection = Some high ->
      getIntegerValue (Range3.getStep self) constraint_collection = Some step ->
      Z.abs (high - low) <= 2 ^ 53 -> Z.abs step <= 2 ^ 53 ->
      exists length,
        Range3.getIterationLength self constraint_collection = Returns length).
Proof.
  split; [ | split; [ | split]].
  - intros self. unfold Range1.getIterationLength.
    destruct (getIntegerValue (Range1.getLow self) constraint_collection);
      eexists; reflexivity.
  - intros self. unfold Range2.getIterationLength.
    destruct (getIntegerValue (Range2.getLow self) constraint_collection);
      [ | eexists; reflexivity].
    destruct (getIntegerValue (Range2.getHigh self) constraint_collection);
      eexists; reflexivity.
  - intros self e. unfold Range3.getIterationLength.
    destruct (getIntegerValue (Range3.getLow self) constraint_collection) as [low | ];
      [ | discriminate].
    destruct (getIntegerValue (Range3.getHigh self) constraint_collection) as [high | ];
      [ | discriminate].
    destruct (getIntegerValue (Range3.getStep self) constraint_collection) as [step | ];
      [ | discriminate].
    apply length_of_raises.
  - intros self low high step Hlow Hhigh Hstep Hdiff Hmagnitude.
    rewrite (range3_length self constraint_collection low high step) by assumption.
    apply length_of_returns_up_to_2_53; assumption.
Qed.


(** X13.  Under every constraint collection, a node for which
    [mayHaveSideEffects] returns [False] can be predicted: for a one- or
    two-argument node [canPredictIterationValues] then returns [True], and
    for a three-argument node [getIterationValue] then returns at every
    index and [getIterationLength] returns [None] only for a step of 0. *)
Theorem side_effect_free_nodes_are_predictable constraint_collection :
  (forall self : Range1.t,
      Range1.mayHaveSideEffects self constraint_collection = false ->
      Range1.canPredictIterationValues self constraint_collection = Returns true) /\
  (forall self : Range2.t,
      Range2.mayHaveSideEffects self constraint_collection = false ->
      Range2.canPredictIterationValues self constraint_collection = Returns true) /\
  (forall self : Range3.t,
      Range3.mayHaveSideEffects self constraint_collection = false ->
      (forall index, exists result,
          Range3.getIterationValue self index constraint_collection = Returns result) /\
      (Range3.getIterationLength self constraint_collection = Returns None ->
       getIntegerValue (Range3.getStep self) constraint_collection = Some 0)).
Proof.
  split; [ | split]; intros self Hpure.
  - unfold Range1.mayHaveSideEffects, Range1.getVisitableNodes in Hpure.
    apply mayHaveSideEffects_false_iff in Hpure.
    inversion Hpure as [ | ? ? [_ Hlow] _].
    unfold Range1.canPredictIterationValues, Range1.getIterationLength, Range1.getLow.
    destruct (getIntegerValue (Range1.low self) constraint_collection);
      [reflexivity | contradiction Hlow; reflexivity].
  - unfold Range2.mayHaveSideEffects, Range2.getVisitableNodes in Hpure.
    apply mayHaveSideEffects_false_iff in Hpure.
    inversion Hpure as [ | ? ? [_ Hlow] Hrest].
    inversion Hrest as [ | ? ? [_ Hhigh] _].
    unfold Range2.canPredictIterationValues, Range2.getIterationLength,
      Range2.getLow, Range2.getHigh.
    destruct (getIntegerValue (Range2.low self) constraint_collection);
      [ | contradiction Hlow; reflexivity].
    destruct (getIntegerValue (Range2.high self) constraint_collection);
      [reflexivity | contradiction Hhigh; reflexivity].
  - unfold Range3.mayHaveSideEffects, Range3.getVisitableNodes in Hpure.
    apply mayHaveSideEffects_false_iff in Hpure.
    inversion Hpure as [ | ? ? [_ Hlow] Hrest].
    inversion Hrest as [ | ? ? [_ Hhigh] Hrest'].
    inversion Hrest' as [ | ? ? [_ Hstep] _].
    unfold Range3.getIterationValue, Range3.getIterationLength,
      Range3.getLow, Range3.getHigh, Range3.getStep.
    destruct (getIntegerValue (Range3.low self) constraint_collection) as [low | ];
      [ | contradiction Hlow; reflexivity].
    destruct (getIntegerValue (Range3.high self) constraint_collection) as [high | ];
      [ | contradiction Hhigh; reflexivity].
    destruct (getIntegerValue (Range3.step self) constraint_collection) as [step | ];
      [ | contradiction Hstep; reflexivity].
    split.
    + intros index. cbn zeta.
      destruct (high <=? low + step * index); eexists; reflexivity.
    + intros Hnone. apply length_of_None in Hnone. subst step. reflexivity.
Qed.

End FurtherProperties.

(** ** Further runs in the small compiler *)

Lemma range3_truth_value_witness :
  Range3.getTruthValue (range3 (const 10) (const 0) (const (-2))) tt
  = Returns (Some true).
Proof.
  apply (range3_truth_value (range3 (const 10) (const 0) (const (-2))) tt 10 0 (-2));
    try reflexivity.
  - vm_compute. discriminate.
  - vm_compute. split; [reflexivity | discriminate].
Defined.

Lemma truth_value_known_iff_predictable_witness :
  exists b : bool,
    Range2.getTruthValue (range2 (const 3) (const 10)) tt = Returns (Some b).
Proof.
  apply (proj1 (proj2 (truth_value_known_iff_predictable
                         (nodes := simple_nodes) tt))
           (range2 (const 3) (const 10))).
  reflexivity.
Defined.

Lemma range1_values_around_length_witness :
  (forall index, 0 <= index < 5 ->
     Range1.getIterationValue (range1 (const 5)) index tt
     = Returns (Some (const index))) /\
  (forall index, 5 < index ->
     Range1.getIterationValue (range1 (const 5)) index tt = Returns None).
Proof.
  exact (range1_values_around_length (range1 (const 5)) tt 5 eq_refl).
Defined.

Lemma range3_ascending_length_and_values_witness :
  Range3.getIterationLength (range3 (const 0) (const 10) (const 3)) tt
  = Returns (Some 4) /\
  (forall index, 0 <= index < 4 ->
     Range3.getIterationValue (range3 (const 0) (const 10) (const 3)) index tt
     = Returns (Some (const (0 + 3 * index)))) /\
  (forall index, 4 <= index ->
     Range3.getIterationValue (range3 (const 0) (const 10) (const 3)) index tt
     = Returns None).
Proof.
  refine (range3_ascending_length_and_values
            (range3 (const 0) (const 10) (const 3)) tt 0 10 3
            eq_refl eq_refl eq_refl _ _).
  - vm_compute. split; [reflexivity | discriminate].
  - vm_compute. discriminate.
Defined.

Lemma range3_unit_step_as_range2_witness :
  Range3.getIterationLength (range3 (const 3) (const 10) (const 1)) tt
  = Range2.getIterationLength (range2 (const 3) (const 10)) tt.
Proof.
  apply (proj2 (range3_unit_step_as_range2
                  (range2 (const 3) (const 10)) (range3 (const 3) (const 10) (const 1))
                  tt 3 10 eq_refl eq_refl eq_refl eq_refl eq_refl)).
  vm_compute. discriminate.
Defined.

Lemma getIterationValue_raises_only_on_unknown_step_witness :
  exists result,
    Range3.getIterationValue (range3 (const 0) (const 10) (const 3)) 2 tt
    = Returns result.
Proof.
  apply (proj2 (proj2 (proj2 (getIterationValue_raises_only_on_unknown_step
                                (nodes := simple_nodes) tt)))
           (range3 (const 0) (const 10) (const 3)) 2).
  vm_compute. reflexivity.
Defined.

Lemma getIterationLength_None_iff_witness :
  Range3.getIterationLength (range3 (const 0) (const 10) (const 0)) tt = Returns None.
Proof.
  apply (proj2 (proj2 (proj2 (getIterationLength_None_iff
                                (nodes := simple_nodes) tt))
                  (range3 (const 0) (const 10) (const 0)))).
  right. right. right. reflexivity.
Defined.

Lemma getIterationLength_raises_only_OverflowError_witness :
  exists length,
    Range3.getIterationLength (range3 (const 0) (const (2 ^ 53)) (const 7)) tt
    = Returns length.
Proof.
  apply (proj2 (proj2 (proj2 (getIterationLength_raises_only_OverflowError
                                (nodes := simple_nodes) tt)))
           (range3 (const 0) (const (2 ^ 53)) (const 7)) 0 (2 ^ 53) 7);
    try reflexivity; vm_compute; discriminate.
Defined.

Lemma side_effect_free_nodes_are_predictable_witness :
  Range2.canPredictIterationValues (range2 (const 3) (const 10)) tt = Returns true.
Proof.
  apply (proj1 (proj2 (side_effect_free_nodes_are_predictable
                         (nodes := simple_nodes) tt))
           (range2 (const 3) (const 10))).
  reflexivity.
Defined.
